(** * pr-heroku-review-app: the review-app lifecycle of [src/index.js]

    A shallow embedding of the GitHub action's [run] function and of the
    closures it defines ([findReviewApp], [checkBuildStatusForReviewApp],
    [waitReviewAppUpdated], [createReviewApp], [getAppDetails],
    [outputAppDetails]), followed by the properties of the lifecycle
    controller and of the build watcher.

    The action talks to two remote services (the Heroku platform API and
    the GitHub REST API) and to the Actions toolkit ([core]).  The remote
    services are an arbitrary deterministic state machine over a world type
    [W] (class [Platform]); every awaited call appends one event, carrying
    the reply it got, to the trace of the run.  The two [do ... while]
    polling loops are unbounded in the source: they take a fuel argument and
    complete as [Pending] when it runs out. *)

From Stdlib Require Import String Ascii List ZArith Bool Lia DecimalString.
Import ListNotations.

Local Open Scope string_scope.
Local Open Scope list_scope.

(** ** JavaScript values used by the action *)

(** The double-quote character of the template strings. *)
Definition dquote : string := String (ascii_of_nat 34) EmptyString.

(** [`${n}`] for an integer [n]. *)
Definition string_of_number (n : Z) : string :=
  NilZero.string_of_int (Z.to_int n).

(** An error object: [name], [message] and the [statusCode] that
    heroku-client puts on the errors of failed requests. *)
Module JsError.
Record t : Type := mk {
  name : string;
  message : string;
  statusCode : option Z
}.
End JsError.

(** [new Error(msg)] *)
Definition Error (msg : string) : JsError.t :=
  JsError.mk "Error" msg None.

(** The fault of reading property [prop] of [null] or [undefined]
    (message as V8 words it). *)
Definition TypeError_reading (what prop : string) : JsError.t :=
  JsError.mk "TypeError"
    ("Cannot read properties of " ++ what ++ " (reading '" ++ prop ++ "')")%string
    None.

(** [`${err}`] and [core.error(err)]: [Error.prototype.toString], which
    gives the message alone when the name is empty, the name alone when the
    message is empty, and both around a colon otherwise. *)
Definition toString (err : JsError.t) : string :=
  match JsError.name err, JsError.message err with
  | EmptyString, msg => msg
  | name, EmptyString => name
  | name, msg => (name ++ ": " ++ msg)%string
  end.

(** [err.statusCode !== code] *)
Definition statusCode_is_not (err : JsError.t) (code : Z) : bool :=
  match JsError.statusCode err with
  | Some c => negb (c =? code)%Z
  | None => true
  end.

(** ** Remote data, as the platform returns it *)

(** [app.app]: the reference to the underlying application. *)
Module AppRef.
Record t : Type := mk { id : string }.
End AppRef.

(** One entry of [GET /pipelines/{id}/review-apps]. *)
Module ReviewApp.
Record t : Type := mk {
  id : string;
  pr_number : Z;
  status : string;
  app : option AppRef.t;
  error_status : option string
}.
End ReviewApp.

(** One entry of [GET /apps/{id}/builds]. *)
Module Build.
Record t : Type := mk {
  source_blob_version : string;
  status : string
}.
End Build.

(** The reply of [GET /apps/{id}]. *)
Module AppDetails.
Record t : Type := mk {
  id : string;
  web_url : string
}.
End AppDetails.

(** The [body] of [POST /review-apps]; [fork_repo_id] is [None] when the
    source leaves it [undefined]. *)
Module CreateBody.
Record t : Type := mk {
  branch : string;
  pipeline : string;
  source_blob_url : string;
  source_blob_version : string;
  fork_repo_id : option Z;
  pr_number : Z;
  environment_GIT_REPO_URL : string
}.
End CreateBody.

(** The argument of [octokit.rest.repos.downloadTarballArchive]. *)
Module ArchiveBody.
Record t : Type := mk {
  owner : string;
  repo : string;
  ref : string
}.
End ArchiveBody.

(** ** The triggering event *)

(** The [github.context] of an event whose payload carries a pull request:
    the fields that [run] destructures, and two fields of the payload that
    [run] never reads, [base_repo_fork]
    ([payload.pull_request.base.repo.fork]) and [payload_action]
    ([payload.action]: opened, synchronize, reopened, closed, ...).
    [action] is the top-level [context.action], which the toolkit fills
    with the name of the running action or the id of the step
    ([GITHUB_ACTION]), not with the action of the event. *)
Module Context.
Record t : Type := mk {
  action : string;
  eventName : string;
  head_ref : string;
  head_sha : string;
  head_repo_id : Z;
  head_repo_fork : bool;
  head_repo_html_url : string;
  base_repo_fork : bool;
  number : Z;
  issue_number : Z;
  repo_owner : string;
  repo_repo : string;
  payload_action : string
}.
End Context.

(** The three required inputs read with [core.getInput]. *)
Module Inputs.
Record t : Type := mk {
  github_token : string;
  heroku_api_token : string;
  heroku_pipeline_id : string
}.
End Inputs.

Definition VALID_EVENT : string := "pull_request".

(** ** Replies, events and completions *)

(** A settled promise. *)
Inductive Reply (A : Type) : Type :=
| Resolved (a : A)
| Rejected (err : JsError.t).
Arguments Resolved {A} a.
Arguments Rejected {A} err.

(** What a run does that is visible from outside: the awaited remote
    calls with their replies, the sleeps, and the [core] calls that open or
    close a log group, annotate the run or set its result.  [core.debug] and
    [core.info] only print and are left out. *)
Inductive Event : Type :=
| HerokuGetReviewApps (url : string) (reply : Reply (list ReviewApp.t))
| HerokuGetBuilds (url : string) (reply : Reply (list Build.t))
| HerokuGetApp (url : string) (reply : Reply AppDetails.t)
| HerokuPost (url : string) (body : CreateBody.t) (reply : Reply ReviewApp.t)
| HerokuDelete (url : string) (reply : Reply unit)
| DownloadTarballArchive (body : ArchiveBody.t) (reply : Reply string)
| WaitSeconds (secs : Z)
| CoreStartGroup (name : string)
| CoreEndGroup
| CoreNotice (msg : string)
| CoreWarning (msg : string)
| CoreError (msg : string)
| CoreSetFailed (msg : string)
| CoreSetOutput (name value : string).

(** How a piece of the program ends: it returns, it throws, or it is
    still polling when the fuel is spent. *)
Inductive Completion (A : Type) : Type :=
| Returned (a : A)
| Thrown (err : JsError.t)
| Pending.
Arguments Returned {A} a.
Arguments Thrown {A} err.
Arguments Pending {A}.

(** ** The remote services *)

(** [heroku.get] is one function in the source; it is split here by the
    shape of the reply its three callers destructure. *)
Class Platform (W : Type) : Type := {
  heroku_get_review_apps : string -> W -> W * Reply (list ReviewApp.t);
  heroku_get_builds : string -> W -> W * Reply (list Build.t);
  heroku_get_app : string -> W -> W * Reply AppDetails.t;
  heroku_post : string -> CreateBody.t -> W -> W * Reply ReviewApp.t;
  heroku_delete : string -> W -> W * Reply unit;
  downloadTarballArchive : ArchiveBody.t -> W -> W * Reply string;
  elapse : Z -> W -> W
}.

(** ** The monad of the action: world passing, trace writing, exceptions *)

Definition M (W A : Type) : Type := W -> W * list Event * Completion A.

Section Monad.
Context {W : Type}.

Definition ret {A : Type} (a : A) : M W A :=
  fun w => (w, [], Returned a).

Definition throw {A : Type} (err : JsError.t) : M W A :=
  fun w => (w, [], Thrown err).

Definition pending {A : Type} : M W A :=
  fun w => (w, [], Pending).

Definition bind {A B : Type} (m : M W A) (k : A -> M W B) : M W B :=
  fun w =>
    match m w with
    | (w1, t1, Returned a) =>
        match k a w1 with
        | (w2, t2, r) => (w2, t1 ++ t2, r)
        end
    | (w1, t1, Thrown err) => (w1, t1, Thrown err)
    | (w1, t1, Pending) => (w1, t1, Pending)
    end.

(** [try { m } catch (err) { h err }] and [promise.catch(h)]. *)
Definition try_catch {A : Type} (m : M W A) (h : JsError.t -> M W A) : M W A :=
  fun w =>
    match m w with
    | (w1, t1, Thrown err) =>
        match h err w1 with
        | (w2, t2, r) => (w2, t1 ++ t2, r)
        end
    | other => other
    end.

Definition emit (e : Event) : M W unit :=
  fun w => (w, [e], Returned tt).

(** [await call]: the call is made, its reply is recorded, a rejection is
    thrown. *)
Definition await {A : Type} (call : W -> W * Reply A)
  (record : Reply A -> Event) : M W A :=
  fun w =>
    match call w with
    | (w1, Resolved a) => (w1, [record (Resolved a)], Returned a)
    | (w1, Rejected err) => (w1, [record (Rejected err)], Thrown err)
    end.

End Monad.

Declare Scope action_scope.
Delimit Scope action_scope with action.
Notation "x <- m ;; k" := (bind m (fun x => k))
  (at level 100, m at next level, right associativity) : action_scope.
Notation "m ;; k" := (bind m (fun _ => k))
  (at level 100, right associativity) : action_scope.
Local Open Scope action_scope.

(** ** The action *)

Section Action.
Context {W : Type} {platform : Platform W}.

(** [const waitSeconds = (secs) => new Promise(...)] *)
Definition waitSeconds (secs : Z) : M W unit :=
  fun w => (elapse secs w, [WaitSeconds secs], Returned tt).

(** The locals of [run] that its closures capture.  The three inputs are
    taken as present and the payload as that of a pull request, so that the
    [core.getInput] calls and the destructuring of [github.context] at the
    top of the [try] block (lines 12 to 40) return; for an event without a
    pull request in its payload the destructuring throws before anything
    below is reached, and that path is not modelled. *)
Variable inputs : Inputs.t.
Variable context : Context.t.

Definition herokuPipelineId : string := Inputs.heroku_pipeline_id inputs.
Definition action : string := Context.action context.
Definition eventName : string := Context.eventName context.
Definition branch : string := Context.head_ref context.
Definition version : string := Context.head_sha context.
Definition repoId : Z := Context.head_repo_id context.
Definition forkRepo : bool := Context.head_repo_fork context.
Definition repoHtmlUrl : string := Context.head_repo_html_url context.
Definition prNumber : Z := Context.number context.
Definition repoOwner : string := Context.repo_owner context.

(** [const forkRepoId = forkRepo ? repoId : undefined;] *)
Definition forkRepoId : option Z :=
  if forkRepo then Some repoId else None.

(** [getAppDetails] *)
Definition getAppDetails (id : string) : M W AppDetails.t :=
  let url := ("/apps/" ++ id)%string in
  await (heroku_get_app url) (HerokuGetApp url).

(** [outputAppDetails] *)
Definition outputAppDetails (app : AppDetails.t) : M W unit :=
  emit (CoreStartGroup "Output app details") ;;
  emit (CoreSetOutput "app_id" (AppDetails.id app)) ;;
  emit (CoreSetOutput "app_web_url" (AppDetails.web_url app)) ;;
  emit CoreEndGroup.

(** [findReviewApp]: [reviewApps.find((app) => app.pr_number === prNumber)],
    [null] when there is none. *)
Definition findReviewApp : M W (option ReviewApp.t) :=
  let apiUrl := ("/pipelines/" ++ herokuPipelineId ++ "/review-apps")%string in
  reviewApps <- await (heroku_get_review_apps apiUrl) (HerokuGetReviewApps apiUrl) ;;
  ret (find (fun app => ReviewApp.pr_number app =? prNumber)%Z reviewApps).

(** [errorStatus || 'no error provided'] *)
Definition errorStatus_or_placeholder (errorStatus : option string) : string :=
  match errorStatus with
  | Some (String c s) => String c s
  | Some EmptyString => "no error provided"
  | None => "no error provided"
  end.

(** [switch (build.status)] of [checkBuildStatusForReviewApp]; [build] is
    what [latestBuilds.find] returned, [undefined] when no build matched. *)
Definition switch_build_status (build : option Build.t)
  (status : string) (errorStatus : option string) : M W bool :=
  match build with
  | None => throw (TypeError_reading "undefined" "status")
  | Some build =>
      if (Build.status build =? "succeeded")%string then ret true
      else if (Build.status build =? "pending")%string then ret false
      else throw (Error ("Unexpected build status: " ++ dquote ++ status
                         ++ dquote ++ ": "
                         ++ errorStatus_or_placeholder errorStatus)%string)
  end.

(** [checkBuildStatusForReviewApp]; the argument is what [findReviewApp]
    returned. *)
Definition checkBuildStatusForReviewApp (app : option ReviewApp.t) : M W bool :=
  match app with
  | None => throw (TypeError_reading "null" "status")
  | Some app =>
      if ("pending" =? ReviewApp.status app)%string
         || ("creating" =? ReviewApp.status app)%string
      then ret false
      else if ("deleting" =? ReviewApp.status app)%string then ret false
      else
        match ReviewApp.app app with
        | None =>
            throw (Error ("Unexpected app status: " ++ dquote
                          ++ ReviewApp.status app ++ dquote)%string)
        | Some ref =>
            let appId := AppRef.id ref in
            let status := ReviewApp.status app in
            let errorStatus := ReviewApp.error_status app in
            let url := ("/apps/" ++ appId ++ "/builds")%string in
            latestBuilds <- await (heroku_get_builds url) (HerokuGetBuilds url) ;;
            let build :=
              find (fun build =>
                      (version =? Build.source_blob_version build)%string)
                   latestBuilds in
            switch_build_status build status errorStatus
        end
  end.

(** The [do { ... } while (!isFinished)] of [waitReviewAppUpdated]; it
    returns the last [reviewApp]. *)
Fixpoint waitReviewAppUpdated_loop (fuel : nat) : M W (option ReviewApp.t) :=
  match fuel with
  | O => pending
  | S fuel' =>
      reviewApp <- findReviewApp ;;
      isFinished <- checkBuildStatusForReviewApp reviewApp ;;
      waitSeconds 5 ;;
      if (isFinished : bool) then ret reviewApp
      else waitReviewAppUpdated_loop fuel'
  end.

(** [reviewApp.app.id] after the loop. *)
Definition reviewApp_app_id (reviewApp : option ReviewApp.t) : M W string :=
  match reviewApp with
  | None => throw (TypeError_reading "null" "app")
  | Some reviewApp =>
      match ReviewApp.app reviewApp with
      | None => throw (TypeError_reading "undefined" "id")
      | Some ref => ret (AppRef.id ref)
      end
  end.

(** [waitReviewAppUpdated] *)
Definition waitReviewAppUpdated (fuel : nat) : M W AppDetails.t :=
  emit (CoreStartGroup "Ensure review app is up to date") ;;
  reviewApp <- findReviewApp ;;
  _ <- checkBuildStatusForReviewApp reviewApp ;;
  reviewApp <- waitReviewAppUpdated_loop fuel ;;
  emit CoreEndGroup ;;
  id <- reviewApp_app_id reviewApp ;;
  getAppDetails id.

(** The [try] block of [createReviewApp]. *)
Definition createReviewApp_try : M W ReviewApp.t :=
  emit (CoreStartGroup "Creating new review app") ;;
  let archiveBody :=
    ArchiveBody.mk repoOwner (Context.repo_repo context) version in
  archiveUrl <- await (downloadTarballArchive archiveBody)
                      (DownloadTarballArchive archiveBody) ;;
  let body :=
    CreateBody.mk branch herokuPipelineId archiveUrl version forkRepoId
                  prNumber repoHtmlUrl in
  app <- await (heroku_post "/review-apps" body)
               (HerokuPost "/review-apps" body) ;;
  emit CoreEndGroup ;;
  ret app.

(** The [catch (err)] block of [createReviewApp]. *)
Definition createReviewApp_catch (err : JsError.t) : M W ReviewApp.t :=
  if statusCode_is_not err 409 then throw err
  else
    emit (CoreWarning "Review app now seems to exist after previously not...") ;;
    emit CoreEndGroup ;;
    app <- findReviewApp ;;
    match app with
    | None => throw (Error "Previously got status 409 but no app found")
    | Some app => ret app
    end.

(** [createReviewApp] *)
Definition createReviewApp : M W ReviewApp.t :=
  try_catch createReviewApp_try createReviewApp_catch.

(** The [do { ... } while (destroyStatus === 'deleting')] of [run].  The
    variable [reviewApp] it assigns is not declared in [run]: in a CommonJS
    script it is an implicit global, read back on the next lines only. *)
Fixpoint destroy_wait_loop (fuel : nat) (destroyStatus : string) : M W unit :=
  match fuel with
  | O => pending
  | S fuel' =>
      reviewApp <- findReviewApp ;;
      let destroyStatus :=
        match reviewApp with
        | Some reviewApp => ReviewApp.status reviewApp
        | None => destroyStatus
        end in
      waitSeconds 5 ;;
      if (destroyStatus =? "deleting")%string
      then destroy_wait_loop fuel' destroyStatus
      else ret tt
  end.

(** [if (app) { await heroku.delete(`/apps/${app.id}`).catch(...); ... }] *)
Definition destroy_existing (fuel : nat) (app : option ReviewApp.t) : M W unit :=
  match app with
  | Some app =>
      let url := ("/apps/" ++ ReviewApp.id app)%string in
      try_catch (await (heroku_delete url) (HerokuDelete url))
                (fun err => emit (CoreNotice ("Error destroying app: "
                                              ++ toString err)%string)) ;;
      destroy_wait_loop fuel "deleting"
  | None => ret tt
  end.

(** [if ('closed' === action) { ... return; }], where [action] is
    [context.action]. *)
Definition close_review_app : M W unit :=
  app <- findReviewApp ;;
  match app with
  | Some app =>
      let url := ("/review-apps/" ++ ReviewApp.id app)%string in
      await (heroku_delete url) (HerokuDelete url) ;;
      emit CoreEndGroup
  | None =>
      emit (CoreError ("Could not find review app for PR #"
                       ++ string_of_number prNumber)%string) ;;
      emit (CoreSetFailed ("Action " ++ dquote ++ "closed" ++ dquote
                           ++ ", yet no existing review app for PR #"
                           ++ string_of_number prNumber)%string)
  end.

(** The [try] block of [run]. *)
Definition run_try (fuel : nat) : M W unit :=
  if negb (eventName =? VALID_EVENT)%string then
    throw (Error ("Unexpected github event trigger: " ++ eventName)%string)
  else if forkRepo then
    emit (CoreNotice "No secrets are available for PRs in forked repos.")
  else if ("closed" =? action)%string then
    close_review_app
  else
    app <- findReviewApp ;;
    destroy_existing fuel app ;;
    _ <- createReviewApp ;;
    updatedApp <- waitReviewAppUpdated fuel ;;
    outputAppDetails updatedApp.

(** The [catch (err)] block of [run]; what is thrown or rejected is an
    error object, which has a [message]. *)
Definition run_catch (err : JsError.t) : M W unit :=
  emit (CoreError (toString err)) ;;
  emit (CoreSetFailed (JsError.message err)).

(** [run] *)
Definition run (fuel : nat) : M W unit :=
  try_catch (run_try fuel) run_catch.

End Action.

(** ** Reading the result of a run *)

Definition world_of {W A : Type} (r : W * list Event * Completion A) : W :=
  fst (fst r).

Definition trace_of {W A : Type} (r : W * list Event * Completion A)
  : list Event :=
  snd (fst r).

Definition completion_of {W A : Type} (r : W * list Event * Completion A)
  : Completion A :=
  snd r.

(** [prepend t r]: the result [r] with the events [t] before its own. *)
Definition prepend {W A : Type} (t : list Event)
  (r : W * list Event * Completion A) : W * list Event * Completion A :=
  (world_of r, t ++ trace_of r, completion_of r).


Definition is_create (e : Event) : bool :=
  match e with
  | HerokuPost _ _ _ => true
  | _ => false
  end.

Definition is_destroy (e : Event) : bool :=
  match e with
  | HerokuDelete _ _ => true
  | _ => false
  end.

Definition is_locate (e : Event) : bool :=
  match e with
  | HerokuGetReviewApps _ _ => true
  | _ => false
  end.

(** What only [waitReviewAppUpdated] does. *)
Definition is_watcher_event (e : Event) : bool :=
  match e with
  | CoreStartGroup name => (name =? "Ensure review app is up to date")%string
  | HerokuGetBuilds _ _ => true
  | HerokuGetApp _ _ => true
  | _ => false
  end.

(** The run was marked failed. *)
Definition is_set_failed (e : Event) : bool :=
  match e with
  | CoreSetFailed _ => true
  | _ => false
  end.

Definition run_failed (t : list Event) : bool := existsb is_set_failed t.

(** The urls of the destroy and delete calls of a trace, in order. *)
Fixpoint delete_urls (t : list Event) : list string :=
  match t with
  | [] => []
  | HerokuDelete url _ :: t' => url :: delete_urls t'
  | _ :: t' => delete_urls t'
  end.

(** ** Observations of a run *)

(** The events of the destroy phase of [run] (lines 258 to 282). *)
Definition is_destroy_phase_event (e : Event) : bool :=
  match e with
  | HerokuGetReviewApps _ _ => true
  | HerokuDelete _ _ => true
  | CoreNotice _ => true
  | WaitSeconds _ => true
  | _ => false
  end.

(** The events of the polling loop of the watcher. *)
Definition is_poll_event (e : Event) : bool :=
  match e with
  | HerokuGetReviewApps _ _ => true
  | HerokuGetBuilds _ _ => true
  | WaitSeconds _ => true
  | _ => false
  end.

(** The event that opens [waitReviewAppUpdated]. *)
Definition is_watch_start (e : Event) : bool :=
  match e with
  | CoreStartGroup name => (name =? "Ensure review app is up to date")%string
  | _ => false
  end.

Section Observations.
Context {W : Type} {platform : Platform W}.
Variable inputs : Inputs.t.
Variable context : Context.t.

(** [keeps_polling n w t w']: from [w], [n] iterations of the watcher's
    loop each resolve as not finished and sleep, leaving the world at [w']
    and the events [t]. *)
Inductive keeps_polling : nat -> W -> list Event -> W -> Prop :=
| keeps_polling_O w : keeps_polling 0 w [] w
| keeps_polling_S n w w1 t1 reviewApp w2 t2 w3 t3 :
    findReviewApp inputs context w = (w1, t1, Returned reviewApp) ->
    checkBuildStatusForReviewApp context reviewApp w1
      = (w2, t2, Returned false) ->
    keeps_polling n (elapse 5 w2) t3 w3 ->
    keeps_polling (S n) w (t1 ++ t2 ++ [WaitSeconds 5] ++ t3) w3.

(** [reaches_iteration fuel w t w']: [waitReviewAppUpdated fuel] started in
    [w] is, after the events [t] and in the world [w'], about to re-locate
    the review app: for its first check (line 143), or for an iteration of
    its loop (line 152) after the first check returned and [n < fuel]
    iterations resolved as not finished. *)
Inductive reaches_iteration (fuel : nat) : W -> list Event -> W -> Prop :=
| reaches_first_check w :
    reaches_iteration fuel w
      [CoreStartGroup "Ensure review app is up to date"] w
| reaches_loop n w w1 t1 reviewApp w2 t2 isFinished w3 t3 :
    findReviewApp inputs context w = (w1, t1, Returned reviewApp) ->
    checkBuildStatusForReviewApp context reviewApp w1
      = (w2, t2, Returned isFinished) ->
    keeps_polling n w2 t3 w3 ->
    n < fuel ->
    reaches_iteration fuel w
      (CoreStartGroup "Ensure review app is up to date" :: t1 ++ t2 ++ t3) w3.

(** The event takes [run] to its reconciling path: it is a pull-request
    event, its head repository is not a fork and [context.action] is not
    [closed]. *)
Definition reconciling : Prop :=
  eventName context = VALID_EVENT
  /\ forkRepo context = false
  /\ action context <> "closed".

(** The statements of [run] that follow [createReviewApp]. *)
Definition watch_and_output (fuel : nat) : M W unit :=
  updatedApp <- waitReviewAppUpdated inputs context fuel ;;
  outputAppDetails updatedApp.

End Observations.

(** The reading of [fork_repo_id] under which it follows the fork flag of
    the base repository: every create request of every run carries the
    repository id exactly when [base_repo_fork] holds. *)
Definition fork_repo_id_follows_base_fork : Prop :=
  forall (W : Type) (platform : Platform W) (inputs : Inputs.t)
         (context : Context.t) (fuel : nat) (w : W) url body reply,
    In (HerokuPost url body reply) (trace_of (run inputs context fuel w)) ->
    (CreateBody.fork_repo_id body = Some (Context.head_repo_id context)
     <-> Context.base_repo_fork context = true).

(** ** Further observations *)

(** An output of the run was set. *)
Definition is_set_output (e : Event) : bool :=
  match e with
  | CoreSetOutput _ _ => true
  | _ => false
  end.

(** Neither an output nor the failure mark. *)
Definition is_silent (e : Event) : bool :=
  negb (is_set_output e) && negb (is_set_failed e).

(** A sleep, if the event is one, is of five seconds. *)
Definition is_fixed_interval (e : Event) : bool :=
  match e with
  | WaitSeconds secs => (secs =? 5)%Z
  | _ => true
  end.

(** The four events of [outputAppDetails]. *)
Definition output_events (app : AppDetails.t) : list Event :=
  [CoreStartGroup "Output app details";
   CoreSetOutput "app_id" (AppDetails.id app);
   CoreSetOutput "app_web_url" (AppDetails.web_url app);
   CoreEndGroup].

(** How the [try] block of a reconciling run can end: after events that
    set neither an output nor the failure mark it has not returned, or it
    has returned right after the four events of [outputAppDetails]. *)
Definition ends_silently_or_with_outputs {W : Type}
  (r : W * list Event * Completion unit) : Prop :=
  exists t0,
    forallb is_silent t0 = true
    /\ ((trace_of r = t0 /\ completion_of r <> Returned tt)
        \/ exists app,
             trace_of r = t0 ++ output_events app
             /\ completion_of r = Returned tt).

Section Waiting.
Context {W : Type} {platform : Platform W}.
Variable inputs : Inputs.t.
Variable context : Context.t.

(** [keeps_waiting n w t w']: from [w], [n] turns of the destroy-wait
    loop each locate the review app as deleting, or do not find it, and
    sleep, leaving the world at [w'] and the events [t]. *)
Inductive keeps_waiting : nat -> W -> list Event -> W -> Prop :=
| keeps_waiting_O w : keeps_waiting 0 w [] w
| keeps_waiting_S n w w1 t1 reviewApp w2 t2 :
    findReviewApp inputs context w = (w1, t1, Returned reviewApp) ->
    match reviewApp with
    | Some reviewApp => ReviewApp.status reviewApp = "deleting"
    | None => True
    end ->
    keeps_waiting n (elapse 5 w1) t2 w2 ->
    keeps_waiting (S n) w (t1 ++ [WaitSeconds 5] ++ t2) w2.

End Waiting.

(** ** A scripted platform

    A test double of the remote services: the review-app list and the build
    list answer from a script, one entry per call and the empty list once
    the script is over; create, destroy and the other calls answer with a
    fixed reply. *)
Module Scripted.

Record World : Type := mk {
  review_apps : list (list ReviewApp.t);
  builds : list (list Build.t);
  create_reply : Reply ReviewApp.t;
  delete_reply : Reply unit;
  archive_reply : Reply string;
  details : AppDetails.t
}.

Definition get_review_apps (_ : string) (w : World)
  : World * Reply (list ReviewApp.t) :=
  match review_apps w with
  | [] => (w, Resolved [])
  | l :: rest =>
      (mk rest (builds w) (create_reply w) (delete_reply w)
          (archive_reply w) (details w), Resolved l)
  end.

Definition get_builds (_ : string) (w : World)
  : World * Reply (list Build.t) :=
  match builds w with
  | [] => (w, Resolved [])
  | l :: rest =>
      (mk (review_apps w) rest (create_reply w) (delete_reply w)
          (archive_reply w) (details w), Resolved l)
  end.

#[global] Instance platform : Platform World := {|
  heroku_get_review_apps := get_review_apps;
  heroku_get_builds := get_builds;
  heroku_get_app := fun _ w => (w, Resolved (details w));
  heroku_post := fun _ _ w => (w, create_reply w);
  heroku_delete := fun _ w => (w, delete_reply w);
  downloadTarballArchive := fun _ w => (w, archive_reply w);
  elapse := fun _ w => w
|}.

End Scripted.

(** ** Sample data *)

Definition sample_inputs : Inputs.t :=
  Inputs.mk "ghs_token" "heroku_token" "pipeline-1".

(** The id under which the workflow runs the step of the action. *)
Definition step_id : string := "__run_2".

(** The event [action] (opened, synchronize, closed, ...) of PR #42 of a
    repository that is not a fork, at commit [def456]. *)
Definition pr42 (action : string) : Context.t :=
  Context.mk step_id "pull_request" "feature" "def456" 1001 false
             "https://github.com/acme/shop" false 42 42 "acme" "shop"
             action.


(** PR #42 in a repository that is itself a fork; the head is not. *)
Definition pr42_base_fork : Context.t :=
  Context.mk step_id "pull_request" "feature" "def456" 1001 false
             "https://github.com/acme/shop" true 42 42 "acme" "shop"
             "opened".

(** Review app [ra-1] of PR #42; its application is [app-1]. *)
Definition review_app_42 (status : string) : ReviewApp.t :=
  ReviewApp.mk "ra-1" 42 status (Some (AppRef.mk "app-1")) None.

(** Review app [ra-7] of another PR, #7. *)
Definition review_app_7 : ReviewApp.t :=
  ReviewApp.mk "ra-7" 7 "created" (Some (AppRef.mk "app-7")) None.

Definition details_app_1 : AppDetails.t :=
  AppDetails.mk "app-1" "https://app-1.example".

(** The rejection of a duplicate create, and one of a failing server. *)
Definition conflict : JsError.t :=
  JsError.mk "Error" "Conflict" (Some 409%Z).

(** The world whose review-app list answers [apps], whose build list
    answers [builds] and whose create call is answered with [create]. *)
Definition scripted_world (apps : list (list ReviewApp.t))
  (builds : list (list Build.t)) (create : Reply ReviewApp.t)
  : Scripted.World :=
  Scripted.mk apps builds create (Resolved tt)
              (Resolved "https://codeload.example/acme/shop/def456")
              details_app_1.

Definition server_error : JsError.t :=
  JsError.mk "Error" "Internal Server Error" (Some 500%Z).

Definition build (version status : string) : Build.t :=
  Build.mk version status.

(** The location of the review app under [sample_inputs] and what a run
    of PR #42 at commit [def456] sends. *)
Definition locate_url : string := "/pipelines/pipeline-1/review-apps".

Definition located (apps : list ReviewApp.t) : Event :=
  HerokuGetReviewApps locate_url (Resolved apps).

Definition archive_42 : ArchiveBody.t := ArchiveBody.mk "acme" "shop" "def456".

Definition archive_url_42 : string :=
  "https://codeload.example/acme/shop/def456".

Definition create_body_42 : CreateBody.t :=
  CreateBody.mk "feature" "pipeline-1" archive_url_42 "def456" None 42
                "https://github.com/acme/shop".

(** ** An unreachable platform and more sample data *)

(** A second test double: every remote call is rejected. *)
Module Offline.

#[global] Instance platform : Platform unit := {|
  heroku_get_review_apps := fun _ w => (w, Rejected server_error);
  heroku_get_builds := fun _ w => (w, Rejected server_error);
  heroku_get_app := fun _ w => (w, Rejected server_error);
  heroku_post := fun _ _ w => (w, Rejected server_error);
  heroku_delete := fun _ w => (w, Rejected server_error);
  downloadTarballArchive := fun _ w => (w, Rejected server_error);
  elapse := fun _ w => w
|}.

End Offline.


(** Scenario 1 of the examples: no review app yet; the create call
    resolves; the build of [def456] is pending at the first check and
    succeeded at the first turn of the loop. *)
Definition fresh_world : Scripted.World :=
  scripted_world
    [[]; [review_app_42 "created"]; [review_app_42 "created"]]
    [[build "def456" "pending"]; [build "def456" "succeeded"]]
    (Resolved (review_app_42 "creating")).

Definition create_trace_42 : list Event :=
  [CoreStartGroup "Creating new review app";
   DownloadTarballArchive archive_42 (Resolved archive_url_42);
   HerokuPost "/review-apps" create_body_42
     (Resolved (review_app_42 "creating"));
   CoreEndGroup].

Definition watch_trace_42 : list Event :=
  [CoreStartGroup "Ensure review app is up to date";
   located [review_app_42 "created"];
   HerokuGetBuilds "/apps/app-1/builds"
     (Resolved [build "def456" "pending"]);
   located [review_app_42 "created"];
   HerokuGetBuilds "/apps/app-1/builds"
     (Resolved [build "def456" "succeeded"]);
   WaitSeconds 5;
   CoreEndGroup;
   HerokuGetApp "/apps/app-1" (Resolved details_app_1)].

(** * Properties *)

(** ** Sequencing lemmas *)

Section MonadFacts.
Context {W : Type}.

Lemma bind_returned {A B : Type} (m : M W A) (k : A -> M W B) w w1 t1 a :
  m w = (w1, t1, Returned a) ->
  bind m k w = prepend t1 (k a w1).
Proof.
  intros H. unfold bind, prepend, world_of, trace_of, completion_of.
  rewrite H. destruct (k a w1) as [[w2 t2] r]. reflexivity.
Qed.

Lemma bind_thrown {A B : Type} (m : M W A) (k : A -> M W B) w w1 t1 err :
  m w = (w1, t1, Thrown err) ->
  bind m k w = (w1, t1, Thrown err).
Proof. intros H. unfold bind. rewrite H. reflexivity. Qed.

Lemma bind_pending {A B : Type} (m : M W A) (k : A -> M W B) w w1 t1 :
  m w = (w1, t1, Pending) ->
  bind m k w = (w1, t1, Pending).
Proof. intros H. unfold bind. rewrite H. reflexivity. Qed.

Lemma try_catch_thrown {A : Type} (m : M W A) h w w1 t1 err :
  m w = (w1, t1, Thrown err) ->
  try_catch m h w = prepend t1 (h err w1).
Proof.
  intros H. unfold try_catch, prepend, world_of, trace_of, completion_of.
  rewrite H. destruct (h err w1) as [[w2 t2] r]. reflexivity.
Qed.

Lemma try_catch_returned {A : Type} (m : M W A) h w w1 t1 a :
  m w = (w1, t1, Returned a) ->
  try_catch m h w = (w1, t1, Returned a).
Proof. intros H. unfold try_catch. rewrite H. reflexivity. Qed.

Lemma try_catch_pending {A : Type} (m : M W A) h w w1 t1 :
  m w = (w1, t1, Pending) ->
  try_catch m h w = (w1, t1, Pending).
Proof. intros H. unfold try_catch. rewrite H. reflexivity. Qed.

Lemma prepend_triple {A : Type} t (w1 : W) t1 (r : Completion A) :
  prepend t (w1, t1, r) = (w1, t ++ t1, r).
Proof. reflexivity. Qed.

Lemma prepend_prepend {A : Type} t t' (r : W * list Event * Completion A) :
  prepend t (prepend t' r) = prepend (t ++ t') r.
Proof.
  unfold prepend, world_of, trace_of, completion_of. simpl.
  rewrite app_assoc. reflexivity.
Qed.

Lemma trace_of_prepend {A : Type} t (r : W * list Event * Completion A) :
  trace_of (prepend t r) = t ++ trace_of r.
Proof. reflexivity. Qed.

End MonadFacts.

(** ** The lifecycle controller and the build watcher *)

Section Properties.
Context {W : Type} {platform : Platform W}.
Variable inputs : Inputs.t.
Variable context : Context.t.

Local Abbreviation findReviewApp' := (findReviewApp inputs context).
Local Abbreviation apiUrl := ("/pipelines/" ++ herokuPipelineId inputs ++ "/review-apps")%string.
Local Abbreviation matches_pr :=
  (fun app : ReviewApp.t => (ReviewApp.pr_number app =? prNumber context)%Z).

(** What [findReviewApp] does: one list call, then the first entry of the
    PR. *)
Lemma findReviewApp_run w :
  findReviewApp' w =
    match heroku_get_review_apps apiUrl w with
    | (w1, Resolved reviewApps) =>
        (w1, [HerokuGetReviewApps apiUrl (Resolved reviewApps)],
         Returned (find matches_pr reviewApps))
    | (w1, Rejected err) =>
        (w1, [HerokuGetReviewApps apiUrl (Rejected err)], Thrown err)
    end.
Proof.
  unfold findReviewApp, bind, await, ret.
  destruct (heroku_get_review_apps apiUrl w) as [w1 [reviewApps | err]];
    reflexivity.
Qed.

Lemma findReviewApp_returned w w1 t found :
  findReviewApp' w = (w1, t, Returned found) ->
  exists reviewApps,
    heroku_get_review_apps apiUrl w = (w1, Resolved reviewApps)
    /\ t = [HerokuGetReviewApps apiUrl (Resolved reviewApps)]
    /\ found = find matches_pr reviewApps.
Proof.
  rewrite findReviewApp_run.
  destruct (heroku_get_review_apps apiUrl w) as [w' [reviewApps | err]];
    intros H; inversion H; subst.
  exists reviewApps. auto.
Qed.

Lemma findReviewApp_trace w :
  exists reply, trace_of (findReviewApp' w) = [HerokuGetReviewApps apiUrl reply].
Proof.
  rewrite findReviewApp_run.
  destruct (heroku_get_review_apps apiUrl w) as [w' [reviewApps | err]];
    eexists; reflexivity.
Qed.

Lemma findReviewApp_not_pending w w1 t :
  findReviewApp' w <> (w1, t, Pending).
Proof.
  rewrite findReviewApp_run.
  destruct (heroku_get_review_apps apiUrl w) as [w' [reviewApps | err]];
    discriminate.
Qed.

(** The top-level handler turns a fault of the [try] block into a failed
    run that returns. *)
Lemma run_of_thrown fuel w w1 t err :
  run_try inputs context fuel w = (w1, t, Thrown err) ->
  run inputs context fuel w =
    (w1, t ++ [CoreError (toString err); CoreSetFailed (JsError.message err)],
     Returned tt).
Proof.
  intros H. unfold run. rewrite (try_catch_thrown _ _ _ _ _ _ H). reflexivity.
Qed.

Lemma run_of_returned fuel w w1 t :
  run_try inputs context fuel w = (w1, t, Returned tt) ->
  run inputs context fuel w = (w1, t, Returned tt).
Proof. intros H. unfold run. apply try_catch_returned, H. Qed.


(** ** One iteration of the build watcher *)

Local Abbreviation check' := (checkBuildStatusForReviewApp context).
Local Abbreviation buildsUrl ref := ("/apps/" ++ AppRef.id ref ++ "/builds")%string.
Local Abbreviation matches_version :=
  (fun build : Build.t =>
     (version context =? Build.source_blob_version build)%string).

(** An absent review app: reading its [status] faults, nothing is called. *)
Lemma check_absent w :
  check' None w = (w, [], Thrown (TypeError_reading "null" "status")).
Proof. reflexivity. Qed.

(** Past the status gate and with an application reference, the iteration
    is the build query followed by the [switch]. *)
Lemma check_past_gate w app ref :
  ReviewApp.status app <> "pending" ->
  ReviewApp.status app <> "creating" ->
  ReviewApp.status app <> "deleting" ->
  ReviewApp.app app = Some ref ->
  check' (Some app) w =
    match heroku_get_builds (buildsUrl ref) w with
    | (w1, Resolved latestBuilds) =>
        prepend [HerokuGetBuilds (buildsUrl ref) (Resolved latestBuilds)]
          (switch_build_status (find matches_version latestBuilds)
             (ReviewApp.status app) (ReviewApp.error_status app) w1)
    | (w1, Rejected err) =>
        (w1, [HerokuGetBuilds (buildsUrl ref) (Rejected err)], Thrown err)
    end.
Proof.
  intros Hp Hc Hd Happ. unfold checkBuildStatusForReviewApp.
  assert (E1 : ("pending" =? ReviewApp.status app)%string = false)
    by (apply String.eqb_neq; congruence).
  assert (E2 : ("creating" =? ReviewApp.status app)%string = false)
    by (apply String.eqb_neq; congruence).
  assert (E3 : ("deleting" =? ReviewApp.status app)%string = false)
    by (apply String.eqb_neq; congruence).
  rewrite E1, E2, E3, Happ. cbn [orb]. cbv zeta.
  unfold bind, await, prepend, world_of, trace_of, completion_of.
  destruct (heroku_get_builds (buildsUrl ref) w) as [w1 [latestBuilds | err]];
    [| reflexivity].
  destruct (switch_build_status _ _ _ w1) as [[w2 t2] r]. reflexivity.
Qed.

(** The iteration returns [true] only through the [succeeded] case of the
    [switch]. *)
Lemma check_true_inv w app w1 t :
  check' (Some app) w = (w1, t, Returned true) ->
  exists ref latestBuilds build,
    ReviewApp.status app <> "pending"
    /\ ReviewApp.status app <> "creating"
    /\ ReviewApp.status app <> "deleting"
    /\ ReviewApp.app app = Some ref
    /\ heroku_get_builds (buildsUrl ref) w = (w1, Resolved latestBuilds)
    /\ t = [HerokuGetBuilds (buildsUrl ref) (Resolved latestBuilds)]
    /\ find matches_version latestBuilds = Some build
    /\ Build.status build = "succeeded".
Proof.
  unfold checkBuildStatusForReviewApp.
  destruct ("pending" =? ReviewApp.status app)%string eqn:E1;
    [discriminate |].
  destruct ("creating" =? ReviewApp.status app)%string eqn:E2;
    [discriminate |].
  destruct ("deleting" =? ReviewApp.status app)%string eqn:E3;
    [discriminate |].
  cbn [orb]. destruct (ReviewApp.app app) as [ref |] eqn:Happ;
    [| discriminate].
  cbv zeta. unfold bind, await.
  destruct (heroku_get_builds (buildsUrl ref) w) as [w' [latestBuilds | err]]
    eqn:Hb; [| discriminate].
  unfold switch_build_status.
  destruct (find matches_version latestBuilds) as [build |] eqn:Hfind;
    [| discriminate].
  destruct (Build.status build =? "succeeded")%string eqn:Es.
  - unfold ret. intros H. inversion H; subst.
    apply String.eqb_neq in E1, E2, E3. apply String.eqb_eq in Es.
    exists ref, latestBuilds, build. repeat split; congruence.
  - destruct (Build.status build =? "pending")%string; discriminate.
Qed.

(** C6. Build version matching: an iteration returns finished exactly
    when the review app is past the status gate, has an application, and the
    first build of the list whose version is the target version has status
    succeeded.  When that build is pending the iteration returns not
    finished, whatever the builds of other versions say; with any other
    status it throws the build-failed error, which carries the error status
    the platform reports, or the placeholder when there is none. *)
Theorem build_version_matching w app :
  (forall w1 t,
     check' (Some app) w = (w1, t, Returned true) <->
     exists ref latestBuilds build,
       ReviewApp.status app <> "pending"
       /\ ReviewApp.status app <> "creating"
       /\ ReviewApp.status app <> "deleting"
       /\ ReviewApp.app app = Some ref
       /\ heroku_get_builds (buildsUrl ref) w = (w1, Resolved latestBuilds)
       /\ t = [HerokuGetBuilds (buildsUrl ref) (Resolved latestBuilds)]
       /\ find matches_version latestBuilds = Some build
       /\ Build.status build = "succeeded")
  /\ (forall ref w1 latestBuilds build,
        ReviewApp.status app <> "pending" ->
        ReviewApp.status app <> "creating" ->
        ReviewApp.status app <> "deleting" ->
        ReviewApp.app app = Some ref ->
        heroku_get_builds (buildsUrl ref) w = (w1, Resolved latestBuilds) ->
        find matches_version latestBuilds = Some build ->
        let called := [HerokuGetBuilds (buildsUrl ref) (Resolved latestBuilds)] in
        let detail :=
          match ReviewApp.error_status app with
          | Some reported =>
              if (reported =? EmptyString)%string then "no error provided"
              else reported
          | None => "no error provided"
          end in
        (Build.status build = "pending" ->
         check' (Some app) w = (w1, called, Returned false))
        /\ (Build.status build <> "succeeded" ->
            Build.status build <> "pending" ->
            check' (Some app) w =
              (w1, called,
               Thrown (Error ("Unexpected build status: " ++ dquote
                              ++ ReviewApp.status app ++ dquote ++ ": "
                              ++ detail)%string)))).
Proof.
  split.
  - intros w1 t. split.
    + apply check_true_inv.
    + intros (ref & latestBuilds & build & Hp & Hc & Hd & Happ & Hb & Ht
              & Hfind & Hs).
      rewrite (check_past_gate w app ref Hp Hc Hd Happ), Hb, Hfind. subst t.
      unfold switch_build_status. rewrite Hs. reflexivity.
  - intros ref w1 latestBuilds build Hp Hc Hd Happ Hb Hfind called detail.
    rewrite (check_past_gate w app ref Hp Hc Hd Happ), Hb, Hfind.
    unfold switch_build_status. split.
    + intros Hs. rewrite Hs. reflexivity.
    + intros Hs1 Hs2.
      apply String.eqb_neq in Hs1, Hs2. rewrite Hs1, Hs2.
      unfold prepend, throw, world_of, trace_of, completion_of. simpl.
      replace (errorStatus_or_placeholder (ReviewApp.error_status app))
        with detail; [reflexivity |].
      unfold detail, errorStatus_or_placeholder.
      destruct (ReviewApp.error_status app) as [[| c s] |]; reflexivity.
Qed.

(** C2. What the code does when no build of the list has the target
    version: [build] is [undefined], the [if (!build)] block only logs, and
    reading [build.status] faults.  The iteration throws, and the loop
    stops there instead of sleeping and retrying. *)
Theorem missing_build_faults fuel w0 w t app ref w1 latestBuilds :
  findReviewApp' w0 = (w, t, Returned (Some app)) ->
  ReviewApp.status app <> "pending" ->
  ReviewApp.status app <> "creating" ->
  ReviewApp.status app <> "deleting" ->
  ReviewApp.app app = Some ref ->
  heroku_get_builds (buildsUrl ref) w = (w1, Resolved latestBuilds) ->
  find matches_version latestBuilds = None ->
  check' (Some app) w =
    (w1, [HerokuGetBuilds (buildsUrl ref) (Resolved latestBuilds)],
     Thrown (TypeError_reading "undefined" "status"))
  /\ waitReviewAppUpdated_loop inputs context (S fuel) w0 =
       (w1, t ++ [HerokuGetBuilds (buildsUrl ref) (Resolved latestBuilds)],
        Thrown (TypeError_reading "undefined" "status")).
Proof.
  intros Hfind Hp Hc Hd Happ Hb Hnone.
  assert (Hcheck : check' (Some app) w =
    (w1, [HerokuGetBuilds (buildsUrl ref) (Resolved latestBuilds)],
     Thrown (TypeError_reading "undefined" "status"))).
  { rewrite (check_past_gate w app ref Hp Hc Hd Happ), Hb, Hnone.
    reflexivity. }
  split; [exact Hcheck |].
  simpl. rewrite (bind_returned _ _ _ _ _ _ Hfind).
  rewrite (bind_thrown _ _ _ _ _ _ Hcheck). reflexivity.
Qed.

(** ** The reconciling path *)

Lemma try_catch_bind_returned {A B : Type} (m : M W A) (k : A -> M W B) h
  w w1 t1 a :
  m w = (w1, t1, Returned a) ->
  try_catch (bind m k) h w = prepend t1 (try_catch (k a) h w1).
Proof.
  intros H. unfold try_catch, bind, prepend, world_of, trace_of, completion_of.
  rewrite H. destruct (k a w1) as [[w2 t2] [b | err |]]; simpl; try reflexivity.
  destruct (h err w2) as [[w3 t3] r]. simpl. rewrite app_assoc. reflexivity.
Qed.

Lemma try_catch_bind_thrown {A B : Type} (m : M W A) (k : A -> M W B) h
  w w1 t1 err :
  m w = (w1, t1, Thrown err) ->
  try_catch (bind m k) h w = prepend t1 (h err w1).
Proof.
  intros H. apply try_catch_thrown. apply bind_thrown, H.
Qed.

Lemma run_try_reconciling fuel :
  reconciling context ->
  run_try inputs context fuel =
    (app <- findReviewApp' ;;
     destroy_existing inputs context fuel app ;;
     _ <- createReviewApp inputs context ;;
     watch_and_output inputs context fuel).
Proof.
  intros (Hev & Hfork & Hact). unfold run_try.
  rewrite Hev, String.eqb_refl, Hfork.
  assert (E : ("closed" =? action context)%string = false)
    by (apply String.eqb_neq; congruence).
  rewrite E. reflexivity.
Qed.

(** Once the destroy phase has returned, the run is [createReviewApp],
    the watcher and the output under the top-level handler. *)
Lemma run_after_destroy fuel w0 w1 t1 app w2 t2 :
  reconciling context ->
  findReviewApp' w0 = (w1, t1, Returned app) ->
  destroy_existing inputs context fuel app w1 = (w2, t2, Returned tt) ->
  run inputs context fuel w0 =
    prepend (t1 ++ t2)
      (try_catch (_ <- createReviewApp inputs context ;;
                  watch_and_output inputs context fuel) run_catch w2).
Proof.
  intros Hrec Hfind Hdestroy. unfold run.
  rewrite (run_try_reconciling fuel Hrec).
  rewrite (try_catch_bind_returned _ _ _ _ _ _ _ Hfind).
  rewrite (try_catch_bind_returned _ _ _ _ _ _ _ Hdestroy).
  apply prepend_prepend.
Qed.

Lemma run_after_create fuel w0 w1 t1 app w2 t2 w3 t3 created :
  reconciling context ->
  findReviewApp' w0 = (w1, t1, Returned app) ->
  destroy_existing inputs context fuel app w1 = (w2, t2, Returned tt) ->
  createReviewApp inputs context w2 = (w3, t3, Returned created) ->
  run inputs context fuel w0 =
    prepend (t1 ++ t2 ++ t3)
      (try_catch (watch_and_output inputs context fuel) run_catch w3).
Proof.
  intros Hrec Hfind Hdestroy Hcreate.
  rewrite (run_after_destroy fuel _ _ _ _ _ _ Hrec Hfind Hdestroy).
  rewrite (try_catch_bind_returned _ _ _ _ _ _ _ Hcreate).
  rewrite prepend_prepend, app_assoc. reflexivity.
Qed.

Lemma run_create_thrown fuel w0 w1 t1 app w2 t2 w3 t3 err :
  reconciling context ->
  findReviewApp' w0 = (w1, t1, Returned app) ->
  destroy_existing inputs context fuel app w1 = (w2, t2, Returned tt) ->
  createReviewApp inputs context w2 = (w3, t3, Thrown err) ->
  run inputs context fuel w0 =
    (w3,
     t1 ++ t2 ++ t3
     ++ [CoreError (toString err); CoreSetFailed (JsError.message err)],
     Returned tt).
Proof.
  intros Hrec Hfind Hdestroy Hcreate.
  rewrite (run_after_destroy fuel _ _ _ _ _ _ Hrec Hfind Hdestroy).
  rewrite (try_catch_bind_thrown _ _ _ _ _ _ _ Hcreate).
  unfold prepend, run_catch, bind, emit, world_of, trace_of, completion_of.
  simpl. rewrite <- !app_assoc. reflexivity.
Qed.

(** ** Creation and the duplicate signal *)

Local Abbreviation recovery :=
  [CoreWarning "Review app now seems to exist after previously not...";
   CoreEndGroup].

Lemma createReviewApp_rethrows w w1 t err :
  createReviewApp_try inputs context w = (w1, t, Thrown err) ->
  JsError.statusCode err <> Some 409%Z ->
  createReviewApp inputs context w = (w1, t, Thrown err).
Proof.
  intros Htry Hcode. unfold createReviewApp.
  rewrite (try_catch_thrown _ _ _ _ _ _ Htry).
  unfold createReviewApp_catch, statusCode_is_not.
  destruct (JsError.statusCode err) as [c |].
  - destruct (c =? 409)%Z eqn:E.
    + apply Z.eqb_eq in E. congruence.
    + simpl. unfold prepend, throw, world_of, trace_of, completion_of. simpl.
      rewrite app_nil_r. reflexivity.
  - unfold prepend, throw, world_of, trace_of, completion_of. simpl.
    rewrite app_nil_r. reflexivity.
Qed.

Lemma createReviewApp_relocates w w1 t err w2 t2 found :
  createReviewApp_try inputs context w = (w1, t, Thrown err) ->
  JsError.statusCode err = Some 409%Z ->
  findReviewApp' w1 = (w2, t2, Returned found) ->
  createReviewApp inputs context w =
    (w2, t ++ recovery ++ t2,
     match found with
     | Some existing => Returned existing
     | None => Thrown (Error "Previously got status 409 but no app found")
     end).
Proof.
  intros Htry Hcode Hfind. unfold createReviewApp.
  rewrite (try_catch_thrown _ _ _ _ _ _ Htry).
  unfold createReviewApp_catch, statusCode_is_not. rewrite Hcode.
  change (negb (409 =? 409)%Z) with false. cbv iota.
  unfold bind at 1. unfold emit at 1.
  unfold bind at 1. unfold emit at 1.
  rewrite (bind_returned _ _ _ _ _ _ Hfind).
  destruct found as [existing |];
    unfold prepend, ret, throw, world_of, trace_of, completion_of; simpl;
    rewrite app_nil_r; reflexivity.
Qed.

(** C3. Conflict on create: in the reconciling path, when the [try] block
    of [createReviewApp] throws, an error whose status code is not 409 is
    rethrown unchanged and fails the run; on status code 409 the locator is
    run again, a review app that is now found is what [createReviewApp]
    returns and the run goes on with the watcher and the output, and when
    none is found the run fails with the inconsistency error. *)
Theorem create_conflict_recovery fuel w0 w1 t1 app w2 t2 w3 t3 err :
  reconciling context ->
  findReviewApp' w0 = (w1, t1, Returned app) ->
  destroy_existing inputs context fuel app w1 = (w2, t2, Returned tt) ->
  createReviewApp_try inputs context w2 = (w3, t3, Thrown err) ->
  (JsError.statusCode err <> Some 409%Z ->
   createReviewApp inputs context w2 = (w3, t3, Thrown err)
   /\ run inputs context fuel w0 =
        (w3,
         t1 ++ t2 ++ t3
         ++ [CoreError (toString err); CoreSetFailed (JsError.message err)],
         Returned tt))
  /\ (JsError.statusCode err = Some 409%Z ->
      forall w4 t4 found,
        findReviewApp' w3 = (w4, t4, Returned found) ->
        match found with
        | Some existing =>
            createReviewApp inputs context w2
              = (w4, t3 ++ recovery ++ t4, Returned existing)
            /\ run inputs context fuel w0 =
                 prepend (t1 ++ t2 ++ t3 ++ recovery ++ t4)
                   (try_catch (watch_and_output inputs context fuel)
                      run_catch w4)
        | None =>
            let fatal := Error "Previously got status 409 but no app found" in
            createReviewApp inputs context w2
              = (w4, t3 ++ recovery ++ t4, Thrown fatal)
            /\ run inputs context fuel w0 =
                 (w4,
                  t1 ++ t2 ++ (t3 ++ recovery ++ t4)
                  ++ [CoreError (toString fatal);
                      CoreSetFailed (JsError.message fatal)],
                  Returned tt)
        end).
Proof.
  intros Hrec Hfind Hdestroy Htry. split.
  - intros Hcode.
    pose proof (createReviewApp_rethrows _ _ _ _ Htry Hcode) as Hcreate.
    split; [exact Hcreate |].
    apply (run_create_thrown fuel _ _ _ _ _ _ _ _ _ Hrec Hfind Hdestroy Hcreate).
  - intros Hcode w4 t4 found Hagain.
    pose proof (createReviewApp_relocates _ _ _ _ _ _ _ Htry Hcode Hagain)
      as Hcreate.
    destruct found as [existing |]; (split; [exact Hcreate |]).
    + rewrite (run_after_create fuel _ _ _ _ _ _ _ _ _
                 Hrec Hfind Hdestroy Hcreate).
      reflexivity.
    + apply (run_create_thrown fuel _ _ _ _ _ _ _ _ _
               Hrec Hfind Hdestroy Hcreate).
Qed.

(** ** The watcher and an absent review app *)

Local Abbreviation null_status_fault := (TypeError_reading "null" "status").

(** After [n] iterations that resolved as not finished, an iteration whose
    location returns absent ends the loop with the fault. *)
Lemma loop_faults_on_absent n :
  forall fuel w t w' w'' t',
    keeps_polling inputs context n w t w' ->
    findReviewApp' w' = (w'', t', Returned None) ->
    n < fuel ->
    waitReviewAppUpdated_loop inputs context fuel w =
      (w'', t ++ t', Thrown null_status_fault).
Proof.
  induction n as [| n IH]; intros fuel w t w' w'' t' Hpoll Habsent Hfuel.
  - inversion Hpoll; subst.
    destruct fuel as [| fuel]; [lia |]. cbn [waitReviewAppUpdated_loop].
    rewrite (bind_returned _ _ _ _ _ _ Habsent).
    rewrite (bind_thrown _ _ _ _ _ _ (check_absent w'')).
    rewrite prepend_triple, app_nil_r. reflexivity.
  - inversion Hpoll as [| n0 wa w1 t1 reviewApp w2 t2 w3 t3 Hfind Hcheck Hrest];
      subst.
    destruct fuel as [| fuel]; [lia |]. cbn [waitReviewAppUpdated_loop].
    rewrite (bind_returned _ _ _ _ _ _ Hfind).
    rewrite (bind_returned _ _ _ _ _ _ Hcheck).
    unfold bind at 1. unfold waitSeconds at 1.
    rewrite (IH fuel _ _ _ _ _ Hrest Habsent) by lia.
    rewrite !prepend_triple. rewrite <- !app_assoc. reflexivity.
Qed.

Lemma watcher_faults_on_absent fuel w t w' w'' t' :
  reaches_iteration inputs context fuel w t w' ->
  findReviewApp' w' = (w'', t', Returned None) ->
  waitReviewAppUpdated inputs context fuel w =
    (w'', t ++ t', Thrown null_status_fault).
Proof.
  intros Hreach Habsent. unfold waitReviewAppUpdated.
  unfold bind at 1. unfold emit at 1.
  inversion Hreach
    as [wa | n wa w1 t1 reviewApp w2 t2 isFinished w3 t3 Hfind Hcheck Hpoll Hn];
    subst.
  - rewrite (bind_returned _ _ _ _ _ _ Habsent).
    rewrite (bind_thrown _ _ _ _ _ _ (check_absent w'')).
    rewrite prepend_triple, app_nil_r. reflexivity.
  - rewrite (bind_returned _ _ _ _ _ _ Hfind).
    rewrite (bind_returned _ _ _ _ _ _ Hcheck).
    rewrite (bind_thrown _ _ _ _ _ _
               (loop_faults_on_absent _ _ _ _ _ _ _ Hpoll Habsent Hn)).
    rewrite !prepend_triple. simpl. rewrite <- !app_assoc. reflexivity.
Qed.

(** C10. Absent review app under the watcher: when the run has created
    the review app and the watcher, at its first check or at an iteration of
    its loop, re-locates and finds none, the iteration faults on reading the
    status of [null]; the watcher does not sleep and poll again but ends
    with that fault, the top-level handler catches it, and the run returns
    marked failed with the fault's message. *)
Theorem watcher_absent_app_fails_run fuel w0 w1 t1 app w2 t2 w3 t3 created
  w4 t4 w5 t5 :
  reconciling context ->
  findReviewApp' w0 = (w1, t1, Returned app) ->
  destroy_existing inputs context fuel app w1 = (w2, t2, Returned tt) ->
  createReviewApp inputs context w2 = (w3, t3, Returned created) ->
  reaches_iteration inputs context fuel w3 t4 w4 ->
  findReviewApp' w4 = (w5, t5, Returned None) ->
  check' None w5 = (w5, [], Thrown null_status_fault)
  /\ waitReviewAppUpdated inputs context fuel w3 =
       (w5, t4 ++ t5, Thrown null_status_fault)
  /\ run inputs context fuel w0 =
       (w5,
        t1 ++ t2 ++ t3 ++ (t4 ++ t5)
        ++ [CoreError (toString null_status_fault);
            CoreSetFailed (JsError.message null_status_fault)],
        Returned tt)
  /\ run_failed (trace_of (run inputs context fuel w0)) = true.
Proof.
  intros Hrec Hfind Hdestroy Hcreate Hreach Habsent.
  pose proof (watcher_faults_on_absent _ _ _ _ _ _ Hreach Habsent) as Hwatch.
  assert (Hrun : run inputs context fuel w0 =
       (w5,
        t1 ++ t2 ++ t3 ++ (t4 ++ t5)
        ++ [CoreError (toString null_status_fault);
            CoreSetFailed (JsError.message null_status_fault)],
        Returned tt)).
  { rewrite (run_after_create fuel _ _ _ _ _ _ _ _ _
               Hrec Hfind Hdestroy Hcreate).
    unfold watch_and_output.
    rewrite (try_catch_bind_thrown _ _ _ _ _ _ _ Hwatch).
    unfold run_catch, bind, emit, prepend, world_of, trace_of, completion_of.
    simpl. rewrite <- !app_assoc. reflexivity. }
  split; [apply check_absent |]. split; [exact Hwatch |].
  split; [exact Hrun |].
  rewrite Hrun. unfold run_failed, trace_of. simpl.
  rewrite !existsb_app. simpl. rewrite !orb_true_r. reflexivity.
Qed.

(** ** The destroy-wait loop *)

(** One turn of the loop. *)
Lemma destroy_wait_loop_step fuel destroyStatus w :
  destroy_wait_loop inputs context (S fuel) destroyStatus w =
    match findReviewApp' w with
    | (w1, t1, Returned reviewApp) =>
        let destroyStatus' :=
          match reviewApp with
          | Some reviewApp => ReviewApp.status reviewApp
          | None => destroyStatus
          end in
        prepend (t1 ++ [WaitSeconds 5])
          (if (destroyStatus' =? "deleting")%string
           then destroy_wait_loop inputs context fuel destroyStatus'
                  (elapse 5 w1)
           else (elapse 5 w1, [], Returned tt))
    | (w1, t1, Thrown err) => (w1, t1, Thrown err)
    | (w1, t1, Pending) => (w1, t1, Pending)
    end.
Proof.
  cbn [destroy_wait_loop].
  destruct (findReviewApp' w) as [[w1 t1] [reviewApp | err |]] eqn:Hfind.
  - rewrite (bind_returned _ _ _ _ _ _ Hfind). cbv zeta.
    unfold bind at 1. unfold waitSeconds at 1.
    destruct ((match reviewApp with
               | Some reviewApp0 => ReviewApp.status reviewApp0
               | None => destroyStatus
               end =? "deleting")%string).
    + destruct (destroy_wait_loop inputs context fuel _ (elapse 5 w1))
        as [[w2 t2] r].
      unfold prepend, world_of, trace_of, completion_of. simpl.
      rewrite <- app_assoc. reflexivity.
    + unfold prepend, ret, world_of, trace_of, completion_of. simpl.
      rewrite app_nil_r. reflexivity.
  - apply bind_thrown, Hfind.
  - apply bind_pending, Hfind.
Qed.

(** The loop ends at the first location that sees the review app with a
    status other than deleting. *)
Lemma destroy_wait_exits_on_other_status fuel destroyStatus w w1 t1 reviewApp :
  findReviewApp' w = (w1, t1, Returned (Some reviewApp)) ->
  ReviewApp.status reviewApp <> "deleting" ->
  destroy_wait_loop inputs context (S fuel) destroyStatus w =
    (elapse 5 w1, t1 ++ [WaitSeconds 5], Returned tt).
Proof.
  intros Hfind Hstatus. rewrite destroy_wait_loop_step, Hfind. cbv zeta.
  apply String.eqb_neq in Hstatus. rewrite Hstatus.
  rewrite prepend_triple, app_nil_r. reflexivity.
Qed.

(** A location that finds no review app leaves [destroyStatus] as it was:
    the loop sleeps and goes round again. *)
Lemma destroy_wait_polls_again_on_absent fuel w w1 t1 :
  findReviewApp' w = (w1, t1, Returned None) ->
  destroy_wait_loop inputs context (S fuel) "deleting" w =
    prepend (t1 ++ [WaitSeconds 5])
      (destroy_wait_loop inputs context fuel "deleting" (elapse 5 w1)).
Proof.
  intros Hfind. rewrite destroy_wait_loop_step, Hfind. reflexivity.
Qed.

Lemma destroy_wait_loop_events fuel :
  forall w,
    forallb is_destroy_phase_event
      (trace_of (destroy_wait_loop inputs context fuel "deleting" w)) = true.
Proof.
  induction fuel as [| fuel IH]; intros w; [reflexivity |].
  rewrite destroy_wait_loop_step.
  destruct (findReviewApp_trace w) as [reply Ht].
  destruct (findReviewApp' w) as [[w1 t1] [reviewApp | err |]];
    change (t1 = [HerokuGetReviewApps apiUrl reply]) in Ht; subst t1.
  2, 3: reflexivity.
  cbv zeta. rewrite trace_of_prepend, forallb_app.
  destruct ((match reviewApp with
             | Some reviewApp0 => ReviewApp.status reviewApp0
             | None => "deleting"
             end =? "deleting")%string) eqn:E.
  - apply String.eqb_eq in E. rewrite E, IH. reflexivity.
  - reflexivity.
Qed.

(** When the loop returns, its last location saw the review app, and not
    deleting. *)
Lemma destroy_wait_loop_returned fuel :
  forall w w' t,
    destroy_wait_loop inputs context fuel "deleting" w = (w', t, Returned tt) ->
    exists pre reviewApps app,
      t = pre ++ [HerokuGetReviewApps apiUrl (Resolved reviewApps);
                  WaitSeconds 5]
      /\ find matches_pr reviewApps = Some app
      /\ ReviewApp.status app <> "deleting".
Proof.
  induction fuel as [| fuel IH]; intros w w' t; [discriminate |].
  rewrite destroy_wait_loop_step.
  destruct (findReviewApp' w) as [[w1 t1] [reviewApp | err |]] eqn:Hfind;
    [| discriminate | discriminate].
  destruct (findReviewApp_returned _ _ _ _ Hfind)
    as (reviewApps & _ & Ht1 & Hfound).
  cbv zeta.
  destruct ((match reviewApp with
             | Some reviewApp0 => ReviewApp.status reviewApp0
             | None => "deleting"
             end =? "deleting")%string) eqn:E.
  - apply String.eqb_eq in E. rewrite E. clear Ht1 Hfound.
    destruct (destroy_wait_loop inputs context fuel "deleting" (elapse 5 w1))
      as [[w2 t2] r] eqn:Hloop.
    rewrite prepend_triple. intros H. inversion H; subst.
    destruct (IH _ _ _ Hloop) as (pre & reviewApps' & app & -> & Hf & Hs).
    exists ((t1 ++ [WaitSeconds 5]) ++ pre), reviewApps', app.
    rewrite <- !app_assoc. auto.
  - destruct reviewApp as [app |]; [| discriminate].
    rewrite prepend_triple. intros H. inversion H; subst.
    exists [], reviewApps, app. apply String.eqb_neq in E. auto.
Qed.

Lemma destroy_existing_events fuel app w :
  forallb is_destroy_phase_event
    (trace_of (destroy_existing inputs context fuel app w)) = true.
Proof.
  destruct app as [app |]; [| reflexivity].
  unfold destroy_existing. cbv zeta.
  set (url := ("/apps/" ++ ReviewApp.id app)%string).
  assert (Hdel : exists wd td,
            try_catch (await (heroku_delete url) (HerokuDelete url))
              (fun err => emit (CoreNotice ("Error destroying app: "
                                            ++ toString err)%string)) w
            = (wd, td, Returned tt)
            /\ forallb is_destroy_phase_event td = true).
  { unfold try_catch, await, emit.
    destruct (heroku_delete url w) as [wd [[] | err]];
      eexists; eexists; split; reflexivity. }
  destruct Hdel as (wd & td & Hdel & Htd).
  rewrite (bind_returned _ _ _ _ _ _ Hdel), trace_of_prepend, forallb_app, Htd.
  apply destroy_wait_loop_events.
Qed.

(** The destroy phase, when it returns: nothing was done if no review app
    was found; otherwise a destroy was issued and the last location saw the
    review app with a status other than deleting. *)
Lemma destroy_existing_returned fuel app w w' t :
  destroy_existing inputs context fuel app w = (w', t, Returned tt) ->
  match app with
  | None => t = []
  | Some _ =>
      existsb is_destroy t = true
      /\ exists pre reviewApps seen,
           t = pre ++ [HerokuGetReviewApps apiUrl (Resolved reviewApps);
                       WaitSeconds 5]
           /\ find matches_pr reviewApps = Some seen
           /\ ReviewApp.status seen <> "deleting"
  end.
Proof.
  destruct app as [app |].
  - unfold destroy_existing. cbv zeta.
    set (url := ("/apps/" ++ ReviewApp.id app)%string).
    assert (Hdel : exists wd td,
              try_catch (await (heroku_delete url) (HerokuDelete url))
                (fun err => emit (CoreNotice ("Error destroying app: "
                                              ++ toString err)%string)) w
              = (wd, td, Returned tt)
              /\ existsb is_destroy td = true).
    { unfold try_catch, await, emit.
      destruct (heroku_delete url w) as [wd [[] | err]];
        eexists; eexists; split; reflexivity. }
    destruct Hdel as (wd & td & Hdel & Htd).
    rewrite (bind_returned _ _ _ _ _ _ Hdel).
    destruct (destroy_wait_loop inputs context fuel "deleting" wd)
      as [[w2 t2] r] eqn:Hloop.
    rewrite prepend_triple. intros H. inversion H; subst.
    split; [rewrite existsb_app, Htd; reflexivity |].
    destruct (destroy_wait_loop_returned _ _ _ _ Hloop)
      as (pre & reviewApps & seen & -> & Hf & Hs).
    exists (td ++ pre), reviewApps, seen. rewrite <- app_assoc. auto.
  - unfold destroy_existing, ret. intros H. inversion H. reflexivity.
Qed.

Lemma destroy_wait_loop_no_destroy fuel :
  forall destroyStatus w,
    existsb is_destroy
      (trace_of (destroy_wait_loop inputs context fuel destroyStatus w))
    = false.
Proof.
  induction fuel as [| fuel IH]; intros destroyStatus w; [reflexivity |].
  rewrite destroy_wait_loop_step.
  destruct (findReviewApp_trace w) as [reply Ht].
  destruct (findReviewApp' w) as [[w1 t1] [reviewApp | err |]];
    change (t1 = [HerokuGetReviewApps apiUrl reply]) in Ht; subst t1.
  2, 3: reflexivity.
  cbv zeta. rewrite trace_of_prepend, existsb_app.
  destruct ((match reviewApp with
             | Some reviewApp0 => ReviewApp.status reviewApp0
             | None => destroyStatus
             end =? "deleting")%string).
  - rewrite IH. reflexivity.
  - reflexivity.
Qed.

(** The destroy phase issues one destroy call, first, to the application
    endpoint with the [id] field of the review-app entry. *)
Lemma destroy_existing_call fuel app w :
  exists reply rest,
    trace_of (destroy_existing inputs context fuel (Some app) w)
    = HerokuDelete ("/apps/" ++ ReviewApp.id app) reply :: rest
    /\ existsb is_destroy rest = false.
Proof.
  unfold destroy_existing. cbv zeta.
  set (url := ("/apps/" ++ ReviewApp.id app)%string).
  assert (Hdel : exists wd reply notice,
            try_catch (await (heroku_delete url) (HerokuDelete url))
              (fun err => emit (CoreNotice ("Error destroying app: "
                                            ++ toString err)%string)) w
            = (wd, HerokuDelete url reply :: notice, Returned tt)
            /\ existsb is_destroy notice = false).
  { unfold try_catch, await, emit.
    destruct (heroku_delete url w) as [wd [[] | err]];
      eexists; eexists; eexists; split; reflexivity. }
  destruct Hdel as (wd & reply & notice & Hdel & Hnotice).
  rewrite (bind_returned _ _ _ _ _ _ Hdel), trace_of_prepend.
  exists reply,
    (notice ++ trace_of (destroy_wait_loop inputs context fuel "deleting" wd)).
  split; [reflexivity |].
  rewrite existsb_app, Hnotice, destroy_wait_loop_no_destroy. reflexivity.
Qed.

(** ** Which events a piece of the run can emit *)

Lemma forallb_weaken (p q : Event -> bool) t :
  (forall e, p e = true -> q e = true) ->
  forallb p t = true -> forallb q t = true.
Proof.
  intros Hpq. induction t as [| e t IH]; simpl; [reflexivity |].
  intros H. apply andb_true_iff in H as [He Ht].
  rewrite (Hpq e He), (IH Ht). reflexivity.
Qed.

Lemma forallb_excludes (p q : Event -> bool) t :
  (forall e, p e = true -> q e = false) ->
  forallb p t = true -> existsb q t = false.
Proof.
  intros Hpq. induction t as [| e t IH]; simpl; [reflexivity |].
  intros H. apply andb_true_iff in H as [He Ht].
  rewrite (Hpq e He), (IH Ht). reflexivity.
Qed.

(** An event that satisfies [p] and is surrounded by events that do not
    can be found at one place only. *)
Lemma split_at_unique (p : Event -> bool) l1 :
  forall x l2 l1' x' l2',
    l1 ++ x :: l2 = l1' ++ x' :: l2' ->
    existsb p l1 = false -> existsb p l2 = false -> p x' = true ->
    l1 = l1' /\ x = x' /\ l2 = l2'.
Proof.
  induction l1 as [| a l1 IH]; intros x l2 l1' x' l2' Heq H1 H2 Hx'.
  - destruct l1' as [| b l1']; simpl in Heq; inversion Heq; subst.
    + auto.
    + rewrite existsb_app in H2. simpl in H2. rewrite Hx' in H2.
      rewrite orb_true_r in H2. discriminate.
  - simpl in H1. apply orb_false_iff in H1 as [Ha H1].
    destruct l1' as [| b l1']; simpl in Heq; inversion Heq; subst.
    + congruence.
    + destruct (IH _ _ _ _ _ H3 H1 H2 Hx') as (-> & -> & ->). auto.
Qed.

Lemma forallb_bind {A B : Type} (p : Event -> bool)
  (m : M W A) (k : A -> M W B) w :
  forallb p (trace_of (m w)) = true ->
  (forall a w1, forallb p (trace_of (k a w1)) = true) ->
  forallb p (trace_of (bind m k w)) = true.
Proof.
  intros Hm Hk. unfold bind.
  destruct (m w) as [[w1 t1] [a | err |]]; try exact Hm.
  specialize (Hk a w1). destruct (k a w1) as [[w2 t2] r].
  unfold trace_of in *. simpl in *. rewrite forallb_app, Hm, Hk. reflexivity.
Qed.

Lemma forallb_try_catch {A : Type} (p : Event -> bool)
  (m : M W A) (h : JsError.t -> M W A) w :
  forallb p (trace_of (m w)) = true ->
  (forall err w1, forallb p (trace_of (h err w1)) = true) ->
  forallb p (trace_of (try_catch m h w)) = true.
Proof.
  intros Hm Hh. unfold try_catch.
  destruct (m w) as [[w1 t1] [a | err |]]; try exact Hm.
  specialize (Hh err w1). destruct (h err w1) as [[w2 t2] r].
  unfold trace_of in *. simpl in *. rewrite forallb_app, Hm, Hh. reflexivity.
Qed.

Lemma forallb_await {A : Type} (p : Event -> bool)
  (call : W -> W * Reply A) (record : Reply A -> Event) w :
  (forall reply, p (record reply) = true) ->
  forallb p (trace_of (await call record w)) = true.
Proof.
  intros Hp. unfold await.
  destruct (call w) as [w1 [a | err]]; unfold trace_of; simpl;
    rewrite Hp; reflexivity.
Qed.

Lemma forallb_findReviewApp (p : Event -> bool) w :
  (forall url reply, p (HerokuGetReviewApps url reply) = true) ->
  forallb p (trace_of (findReviewApp' w)) = true.
Proof.
  intros Hp. destruct (findReviewApp_trace w) as [reply ->].
  simpl. rewrite Hp. reflexivity.
Qed.

(** Neither a create call nor the opening of the watcher. *)
Local Abbreviation quiet :=
  (fun e : Event => negb (is_create e) && negb (is_watch_start e)).

Lemma quiet_excludes_create t :
  forallb quiet t = true -> existsb is_create t = false.
Proof.
  apply forallb_excludes. intros e H.
  apply andb_true_iff in H as [H _]. apply negb_true_iff in H. exact H.
Qed.

Lemma quiet_excludes_watch_start t :
  forallb quiet t = true -> existsb is_watch_start t = false.
Proof.
  apply forallb_excludes. intros e H.
  apply andb_true_iff in H as [_ H]. apply negb_true_iff in H. exact H.
Qed.

Lemma destroy_phase_event_quiet e :
  is_destroy_phase_event e = true -> quiet e = true.
Proof. destruct e; simpl; intros H; try discriminate; reflexivity. Qed.

Lemma destroy_phase_event_not_watcher e :
  is_destroy_phase_event e = true -> is_watcher_event e = false.
Proof. destruct e; simpl; intros H; try discriminate; reflexivity. Qed.

Lemma poll_event_quiet e : is_poll_event e = true -> quiet e = true.
Proof. destruct e; simpl; intros H; try discriminate; reflexivity. Qed.

Lemma run_catch_quiet err (w : W) :
  forallb quiet (trace_of (run_catch err w)) = true.
Proof. reflexivity. Qed.

Lemma check_events app w :
  forallb is_poll_event (trace_of (check' app w)) = true.
Proof.
  destruct app as [app |]; [| reflexivity].
  unfold checkBuildStatusForReviewApp.
  destruct (("pending" =? ReviewApp.status app)%string
            || ("creating" =? ReviewApp.status app)%string); [reflexivity |].
  destruct ("deleting" =? ReviewApp.status app)%string; [reflexivity |].
  destruct (ReviewApp.app app) as [ref |]; [| reflexivity].
  cbv zeta. apply forallb_bind.
  - apply forallb_await. reflexivity.
  - intros latestBuilds w1. unfold switch_build_status.
    destruct (find matches_version latestBuilds) as [build |];
      [| reflexivity].
    destruct (Build.status build =? "succeeded")%string; [reflexivity |].
    destruct (Build.status build =? "pending")%string; reflexivity.
Qed.

Lemma watch_loop_events fuel :
  forall w,
    forallb is_poll_event
      (trace_of (waitReviewAppUpdated_loop inputs context fuel w)) = true.
Proof.
  induction fuel as [| fuel IH]; intros w; [reflexivity |].
  cbn [waitReviewAppUpdated_loop].
  apply forallb_bind; [apply forallb_findReviewApp; reflexivity |].
  intros reviewApp w1.
  apply forallb_bind; [apply check_events |].
  intros isFinished w2.
  apply forallb_bind; [reflexivity |].
  intros _ w3. destruct isFinished; [reflexivity | apply IH].
Qed.

(** The watcher opens its group and then emits nothing that is a create
    call or a second opening; so does the output that follows it, and the
    top-level handler if something is thrown. *)
Lemma watch_and_output_events fuel w :
  exists rest,
    trace_of (try_catch (watch_and_output inputs context fuel) run_catch w)
      = CoreStartGroup "Ensure review app is up to date" :: rest
    /\ forallb quiet rest = true.
Proof.
  unfold watch_and_output, waitReviewAppUpdated.
  set (after_start :=
         (reviewApp <- findReviewApp' ;;
          _ <- check' reviewApp ;;
          reviewApp0 <- waitReviewAppUpdated_loop inputs context fuel ;;
          emit CoreEndGroup ;;
          id <- reviewApp_app_id reviewApp0 ;;
          getAppDetails id)).
  set (handled := try_catch (updatedApp <- after_start ;;
                             outputAppDetails updatedApp) run_catch).
  exists (trace_of (handled w)). split.
  - unfold handled, try_catch, bind, emit, trace_of.
    destruct (after_start w) as [[w1 t1] [a | err |]]; reflexivity.
  - unfold handled. apply forallb_try_catch; [| apply run_catch_quiet].
    apply forallb_bind; [| reflexivity].
    unfold after_start.
    apply forallb_bind; [apply forallb_findReviewApp; reflexivity |].
    intros reviewApp w1.
    apply forallb_bind;
      [apply (forallb_weaken _ _ _ poll_event_quiet), check_events |].
    intros _ w2.
    apply forallb_bind;
      [apply (forallb_weaken _ _ _ poll_event_quiet), watch_loop_events |].
    intros reviewApp0 w3.
    apply forallb_bind; [reflexivity |].
    intros _ w4.
    apply forallb_bind;
      [destruct reviewApp0 as [[? ? ? [?|] ?] |]; reflexivity |].
    intros id w5. apply forallb_await. reflexivity.
Qed.

(** ** The events of [createReviewApp] *)

Local Abbreviation archiveBody :=
  (ArchiveBody.mk (repoOwner context) (Context.repo_repo context)
                  (version context)).
Local Abbreviation createBody archiveUrl :=
  (CreateBody.mk (branch context) (herokuPipelineId inputs) archiveUrl
                 (version context) (forkRepoId context) (prNumber context)
                 (repoHtmlUrl context)).

Lemma createReviewApp_try_run w :
  createReviewApp_try inputs context w =
    match downloadTarballArchive archiveBody w with
    | (w1, Resolved archiveUrl) =>
        match heroku_post "/review-apps" (createBody archiveUrl) w1 with
        | (w2, Resolved app) =>
            (w2,
             [CoreStartGroup "Creating new review app";
              DownloadTarballArchive archiveBody (Resolved archiveUrl);
              HerokuPost "/review-apps" (createBody archiveUrl) (Resolved app);
              CoreEndGroup],
             Returned app)
        | (w2, Rejected err) =>
            (w2,
             [CoreStartGroup "Creating new review app";
              DownloadTarballArchive archiveBody (Resolved archiveUrl);
              HerokuPost "/review-apps" (createBody archiveUrl) (Rejected err)],
             Thrown err)
        end
    | (w1, Rejected err) =>
        (w1,
         [CoreStartGroup "Creating new review app";
          DownloadTarballArchive archiveBody (Rejected err)],
         Thrown err)
    end.
Proof.
  unfold createReviewApp_try, bind, emit, await, ret. cbv zeta.
  destruct (downloadTarballArchive archiveBody w) as [w1 [archiveUrl | err]];
    [| reflexivity].
  destruct (heroku_post "/review-apps" (createBody archiveUrl) w1)
    as [w2 [app | err]]; reflexivity.
Qed.

(** The [catch] block emits the warning, closes the group and re-locates:
    no create, no destroy, nothing of the watcher. *)
Lemma createReviewApp_catch_events err w :
  forallb (fun e => quiet e && negb (is_watcher_event e)
                    && negb (is_destroy e))
    (trace_of (createReviewApp_catch inputs context err w)) = true.
Proof.
  unfold createReviewApp_catch.
  destruct (statusCode_is_not err 409); [reflexivity |].
  apply forallb_bind; [reflexivity |]. intros _ w1.
  apply forallb_bind; [reflexivity |]. intros _ w2.
  apply forallb_bind; [apply forallb_findReviewApp; reflexivity |].
  intros [app |] w3; reflexivity.
Qed.

(** [createReviewApp] emits nothing of the watcher and no destroy; it
    issues the create call at most once, third, after opening its group and
    fetching the archive, with the body built from the event. *)
Lemma createReviewApp_events w :
  let t := trace_of (createReviewApp inputs context w) in
  existsb is_watcher_event t = false
  /\ existsb is_destroy t = false
  /\ (existsb is_create t = false
      \/ exists archiveUrl reply rest,
           t = [CoreStartGroup "Creating new review app";
                DownloadTarballArchive archiveBody (Resolved archiveUrl);
                HerokuPost "/review-apps" (createBody archiveUrl) reply]
               ++ rest
           /\ existsb is_create rest = false).
Proof.
  cbv zeta. unfold createReviewApp, try_catch.
  rewrite createReviewApp_try_run.
  destruct (downloadTarballArchive archiveBody w) as [w1 [archiveUrl | err]].
  - destruct (heroku_post "/review-apps" (createBody archiveUrl) w1)
      as [w2 [app | err]].
    + split; [reflexivity | split; [reflexivity |]].
      right. exists archiveUrl, (Resolved app), [CoreEndGroup].
      split; reflexivity.
    + pose proof (createReviewApp_catch_events err w2) as Hc.
      destruct (createReviewApp_catch inputs context err w2) as [[w3 t3] r].
      unfold trace_of in *. simpl in *.
      split; [| split].
      * revert Hc. apply forallb_excludes. intros e H.
        apply andb_true_iff in H as [H _]. apply andb_true_iff in H as [_ H].
        apply negb_true_iff in H. exact H.
      * revert Hc. apply forallb_excludes. intros e H.
        apply andb_true_iff in H as [_ H]. apply negb_true_iff in H. exact H.
      * right. exists archiveUrl, (Rejected err), t3. split; [reflexivity |].
        revert Hc. apply forallb_excludes. intros e H.
        apply andb_true_iff in H as [H _]. apply andb_true_iff in H as [H _].
        apply andb_true_iff in H as [H _]. apply negb_true_iff in H. exact H.
  - pose proof (createReviewApp_catch_events err w1) as Hc.
    destruct (createReviewApp_catch inputs context err w1) as [[w3 t3] r].
    unfold trace_of in *. simpl in *.
    split; [| split; [| left]].
    + revert Hc. apply forallb_excludes. intros e H.
      apply andb_true_iff in H as [H _]. apply andb_true_iff in H as [_ H].
      apply negb_true_iff in H. exact H.
    + revert Hc. apply forallb_excludes. intros e H.
      apply andb_true_iff in H as [_ H]. apply negb_true_iff in H. exact H.
    + revert Hc. apply forallb_excludes. intros e H.
      apply andb_true_iff in H as [H _]. apply andb_true_iff in H as [H _].
      apply andb_true_iff in H as [H _]. apply negb_true_iff in H. exact H.
Qed.

(** ** The shape of the trace of a run *)

Lemma existsb_weaken (p q : Event -> bool) t :
  (forall e, q e = true -> p e = true) ->
  existsb p t = false -> existsb q t = false.
Proof.
  intros Hqp. induction t as [| e t IH]; simpl; [reflexivity |].
  intros H. apply orb_false_iff in H as [He Ht].
  rewrite (IH Ht), orb_false_r.
  destruct (q e) eqn:E; [| reflexivity].
  rewrite (Hqp e E) in He. discriminate.
Qed.

Lemma watch_start_is_watcher_event e :
  is_watch_start e = true -> is_watcher_event e = true.
Proof. destruct e; simpl; intros H; try discriminate; exact H. Qed.

Lemma try_catch_bind_pending {A B : Type} (m : M W A) (k : A -> M W B) h
  w w1 t1 :
  m w = (w1, t1, Pending) ->
  try_catch (bind m k) h w = (w1, t1, Pending).
Proof. intros H. apply try_catch_pending, bind_pending, H. Qed.

(** Outside the reconciling path a run creates nothing and never opens the
    watcher. *)
Lemma run_quiet_outside_reconciling fuel w :
  ~ reconciling context ->
  forallb quiet (trace_of (run inputs context fuel w)) = true.
Proof.
  intros Hnot. unfold run.
  apply forallb_try_catch; [| apply run_catch_quiet].
  unfold run_try.
  destruct (eventName context =? VALID_EVENT)%string eqn:Hev; [| reflexivity].
  destruct (forkRepo context) eqn:Hfork; [reflexivity |].
  destruct ("closed" =? action context)%string eqn:Hact.
  - cbn [negb]. cbv iota. unfold close_review_app.
    apply forallb_bind; [apply forallb_findReviewApp; reflexivity |].
    intros [app |] w1; [| reflexivity].
    cbv zeta. apply forallb_bind; [| reflexivity].
    apply forallb_await. reflexivity.
  - exfalso. apply Hnot. apply String.eqb_eq in Hev.
    apply String.eqb_neq in Hact. unfold reconciling. repeat split; congruence.
Qed.

(** Either the run never gets to [createReviewApp], and then creates
    nothing and never opens the watcher; or its trace is the destroy phase,
    whose last location did not see the review app deleting, then
    [createReviewApp], then, only if that returned, the watcher. *)
Lemma run_trace_shape fuel w :
  let t := trace_of (run inputs context fuel w) in
  forallb quiet t = true
  \/ exists before reviewApps tail w1 w2 t_create c t_rest,
       t = (before ++ HerokuGetReviewApps apiUrl (Resolved reviewApps) :: tail)
           ++ t_create ++ t_rest
       /\ forallb is_destroy_phase_event before = true
       /\ (tail = [] \/ tail = [WaitSeconds 5])
       /\ (forall app, find matches_pr reviewApps = Some app ->
                       ReviewApp.status app <> "deleting")
       /\ (existsb is_destroy before = true ->
           exists app, find matches_pr reviewApps = Some app)
       /\ createReviewApp inputs context w1 = (w2, t_create, c)
       /\ ((exists created rest,
              c = Returned created
              /\ t_rest = CoreStartGroup "Ensure review app is up to date"
                          :: rest
              /\ forallb quiet rest = true)
           \/ ((forall created, c <> Returned created)
               /\ forallb quiet t_rest = true)).
Proof.
  cbv zeta.
  assert (Hdec : reconciling context \/ ~ reconciling context).
  { unfold reconciling.
    destruct (String.eqb_spec (eventName context) VALID_EVENT);
      [| right; tauto].
    destruct (forkRepo context); [right; intros (_ & H & _); discriminate |].
    destruct (String.eqb_spec (action context) "closed");
      [right; tauto | left; auto]. }
  destruct Hdec as [Hrec | Hnot];
    [| left; apply run_quiet_outside_reconciling, Hnot].
  destruct (findReviewApp' w) as [[w1 t1] [app | err |]] eqn:Hfind.
  2: { left. unfold run. rewrite (run_try_reconciling fuel Hrec).
       rewrite (try_catch_bind_thrown _ _ _ _ _ _ _ Hfind).
       rewrite trace_of_prepend, forallb_app.
       pose proof (forallb_findReviewApp quiet w
                     (fun _ _ => eq_refl)) as Hq.
       rewrite Hfind in Hq. unfold trace_of in Hq at 1. simpl in Hq.
       rewrite Hq. reflexivity. }
  2: { exfalso. exact (findReviewApp_not_pending _ _ _ Hfind). }
  destruct (findReviewApp_returned _ _ _ _ Hfind)
    as (reviewApps0 & _ & Ht1 & Hfound).
  destruct (destroy_existing inputs context fuel app w1)
    as [[w2 t2] [[] | err |]] eqn:Hdestroy.
  - (* the destroy phase returned *)
    right.
    rewrite (run_after_destroy fuel _ _ _ _ _ _ Hrec Hfind Hdestroy).
    rewrite trace_of_prepend.
    assert (Hbefore : exists before reviewApps tail,
              t1 ++ t2 = before
                         ++ HerokuGetReviewApps apiUrl (Resolved reviewApps)
                         :: tail
              /\ forallb is_destroy_phase_event before = true
              /\ (tail = [] \/ tail = [WaitSeconds 5])
              /\ (forall seen, find matches_pr reviewApps = Some seen ->
                               ReviewApp.status seen <> "deleting")
              /\ (existsb is_destroy before = true ->
                  exists seen, find matches_pr reviewApps = Some seen)).
    { pose proof (destroy_existing_returned _ _ _ _ _ Hdestroy) as Hd.
      pose proof (destroy_existing_events fuel app w1) as He.
      rewrite Hdestroy in He. unfold trace_of in He. simpl in He.
      destruct app as [app |].
      - destruct Hd as (_ & pre & reviewApps & seen & Ht2 & Hseen & Hstatus).
        exists (t1 ++ pre), reviewApps, [WaitSeconds 5].
        subst t1 t2. rewrite forallb_app in He. apply andb_true_iff in He.
        split; [| split; [| split; [| split]]].
        + rewrite <- app_assoc. reflexivity.
        + simpl. apply He.
        + auto.
        + intros seen' H. congruence.
        + intros _. exists seen. exact Hseen.
      - subst t2. exists [], reviewApps0, []. subst t1.
        split; [| split; [| split; [| split]]].
        + reflexivity.
        + reflexivity.
        + auto.
        + intros seen H. congruence.
        + discriminate. }
    destruct Hbefore as (before & reviewApps & tail & Heq & Hev & Htail
                         & Hseen & Hdestroyed).
    rewrite Heq.
    destruct (createReviewApp inputs context w2) as [[w3 t3] c] eqn:Hcreate.
    exists before, reviewApps, tail, w2, w3, t3, c.
    destruct c as [created | err |].
    + destruct (watch_and_output_events fuel w3) as (rest & Hrest & Hquiet).
      exists (CoreStartGroup "Ensure review app is up to date" :: rest).
      rewrite (try_catch_bind_returned _ _ _ _ _ _ _ Hcreate).
      rewrite trace_of_prepend, Hrest.
      repeat split; auto. left. exists created, rest. auto.
    + exists [CoreError (toString err); CoreSetFailed (JsError.message err)].
      rewrite (try_catch_bind_thrown _ _ _ _ _ _ _ Hcreate).
      repeat split; auto. right. split; [discriminate | reflexivity].
    + exists [].
      rewrite (try_catch_bind_pending _ _ _ _ _ _ Hcreate).
      unfold trace_of at 1. simpl. rewrite app_nil_r.
      repeat split; auto. right. split; [discriminate | reflexivity].
  - (* the destroy phase threw *)
    left. unfold run. rewrite (run_try_reconciling fuel Hrec).
    rewrite (try_catch_bind_returned _ _ _ _ _ _ _ Hfind).
    rewrite (try_catch_bind_thrown _ _ _ _ _ _ _ Hdestroy).
    rewrite !trace_of_prepend, !forallb_app.
    pose proof (destroy_existing_events fuel app w1) as He.
    rewrite Hdestroy in He. unfold trace_of in He at 1. simpl in He.
    rewrite (forallb_weaken _ _ _ destroy_phase_event_quiet He).
    subst t1. reflexivity.
  - (* the destroy phase is still polling *)
    left. unfold run. rewrite (run_try_reconciling fuel Hrec).
    rewrite (try_catch_bind_returned _ _ _ _ _ _ _ Hfind).
    rewrite (try_catch_bind_pending _ _ _ _ _ _ Hdestroy).
    rewrite trace_of_prepend, forallb_app.
    pose proof (destroy_existing_events fuel app w1) as He.
    rewrite Hdestroy in He. unfold trace_of in He at 1. simpl in He.
    unfold trace_of at 1. simpl.
    rewrite (forallb_weaken _ _ _ destroy_phase_event_quiet He).
    subst t1. reflexivity.
Qed.

(** ** Destroy, then create, then watch *)

Lemma trace_with_create_is_not_quiet t pre e post :
  t = pre ++ e :: post -> is_create e = true -> forallb quiet t = true ->
  False.
Proof.
  intros -> He Hq. apply quiet_excludes_create in Hq.
  rewrite existsb_app in Hq. simpl in Hq. rewrite He in Hq.
  rewrite orb_true_r in Hq. discriminate.
Qed.

Lemma trace_with_watch_start_is_not_quiet t pre e post :
  t = pre ++ e :: post -> is_watch_start e = true -> forallb quiet t = true ->
  False.
Proof.
  intros -> He Hq. apply quiet_excludes_watch_start in Hq.
  rewrite existsb_app in Hq. simpl in Hq. rewrite He in Hq.
  rewrite orb_true_r in Hq. discriminate.
Qed.

(** C7. Strict sequencing: wherever the trace of a run has a create
    call, nothing of the watcher and no other create call comes before it,
    no create call comes after it, and the last location before it did not
    see the review app of the PR with status deleting; when a destroy was
    issued before it, that last location saw the review app, with another
    status.  Wherever the trace has the opening of the watcher, the events
    just before it are those of a call of [createReviewApp] that
    returned. *)
Theorem destroy_create_watch_in_sequence fuel w :
  let t := trace_of (run inputs context fuel w) in
  (forall pre url body reply post,
     t = pre ++ HerokuPost url body reply :: post ->
     existsb is_watcher_event pre = false
     /\ existsb is_create pre = false
     /\ existsb is_create post = false
     /\ exists pre1 lurl reviewApps pre2,
          pre = pre1 ++ HerokuGetReviewApps lurl (Resolved reviewApps) :: pre2
          /\ existsb is_locate pre2 = false
          /\ (forall app, find matches_pr reviewApps = Some app ->
                          ReviewApp.status app <> "deleting")
          /\ (existsb is_destroy pre = true ->
              exists app, find matches_pr reviewApps = Some app))
  /\ (forall pre post,
        t = pre ++ CoreStartGroup "Ensure review app is up to date" :: post ->
        exists pre1 pre2 w1 w2 created,
          pre = pre1 ++ pre2
          /\ createReviewApp inputs context w1 = (w2, pre2, Returned created)).
Proof.
  cbv zeta.
  destruct (run_trace_shape fuel w)
    as [Hquiet | (before & reviewApps & tail & w1 & w2 & t_create & c & t_rest
                  & Ht & Hbefore & Htail & Hseen & Hdestroyed & Hcreate
                  & Hrest)].
  { split.
    - intros pre url body reply post Heq. exfalso.
      exact (trace_with_create_is_not_quiet _ _ _ _ Heq eq_refl Hquiet).
    - intros pre post Heq. exfalso.
      exact (trace_with_watch_start_is_not_quiet _ _ _ _ Heq eq_refl Hquiet). }
  set (located := before ++ HerokuGetReviewApps apiUrl (Resolved reviewApps)
                         :: tail) in *.
  assert (Hlocated_quiet : forallb quiet located = true).
  { unfold located. rewrite forallb_app.
    rewrite (forallb_weaken _ _ _ destroy_phase_event_quiet Hbefore).
    destruct Htail as [-> | ->]; reflexivity. }
  assert (Hlocated_watcher : existsb is_watcher_event located = false).
  { unfold located. rewrite existsb_app.
    rewrite (forallb_excludes _ _ _ destroy_phase_event_not_watcher Hbefore).
    destruct Htail as [-> | ->]; reflexivity. }
  assert (Hrest_create : existsb is_create t_rest = false).
  { destruct Hrest as [(created & rest & _ & -> & Hq) | (_ & Hq)].
    - simpl. apply quiet_excludes_create, Hq.
    - apply quiet_excludes_create, Hq. }
  pose proof (createReviewApp_events w1) as Hevents.
  rewrite Hcreate in Hevents. cbv zeta in Hevents.
  unfold trace_of in Hevents. simpl in Hevents.
  destruct Hevents as (Hc_watcher & Hc_destroy & Hc_create).
  split.
  - intros pre url body reply post Heq.
    destruct Hc_create
      as [Hnone | (archiveUrl & creply & rest_c & -> & Hrest_c)].
    { exfalso. rewrite Ht in Heq.
      assert (Hall : existsb is_create (located ++ t_create ++ t_rest) = false).
      { rewrite !existsb_app, (quiet_excludes_create _ Hlocated_quiet),
          Hnone, Hrest_create. reflexivity. }
      rewrite Heq, existsb_app in Hall. simpl in Hall.
      rewrite orb_true_r in Hall. discriminate. }
    set (opening := [CoreStartGroup "Creating new review app";
                     DownloadTarballArchive archiveBody (Resolved archiveUrl)])
      in *.
    assert (Hsplit :
              (located ++ opening)
              ++ HerokuPost "/review-apps" (createBody archiveUrl) creply
              :: (rest_c ++ t_rest)
              = pre ++ HerokuPost url body reply :: post).
    { rewrite <- Heq, Ht. unfold opening. rewrite <- !app_assoc. reflexivity. }
    apply (split_at_unique is_create) in Hsplit as (<- & _ & <-);
      [| | | reflexivity].
    2: { rewrite existsb_app, (quiet_excludes_create _ Hlocated_quiet).
         reflexivity. }
    2: { rewrite existsb_app, Hrest_c, Hrest_create. reflexivity. }
    split; [rewrite existsb_app, Hlocated_watcher; reflexivity |].
    split; [rewrite existsb_app, (quiet_excludes_create _ Hlocated_quiet);
            reflexivity |].
    split; [rewrite existsb_app, Hrest_c, Hrest_create; reflexivity |].
    exists before, apiUrl, reviewApps, (tail ++ opening).
    split; [unfold located; rewrite <- app_assoc; reflexivity |].
    split; [destruct Htail as [-> | ->]; reflexivity |].
    split; [exact Hseen |].
    intros Hd. apply Hdestroyed.
    unfold located in Hd. rewrite !existsb_app in Hd. simpl in Hd.
    destruct (existsb is_destroy before); [reflexivity |].
    destruct Htail as [-> | ->]; discriminate.
  - intros pre post Heq.
    assert (Hc_start : existsb is_watch_start t_create = false)
      by (apply (existsb_weaken _ _ _ watch_start_is_watcher_event),
            Hc_watcher).
    destruct Hrest as [(created & rest & -> & -> & Hq) | (_ & Hq)].
    + assert (Hsplit :
                (located ++ t_create)
                ++ CoreStartGroup "Ensure review app is up to date" :: rest
                = pre ++ CoreStartGroup "Ensure review app is up to date"
                      :: post).
      { rewrite <- Heq, Ht, <- app_assoc. reflexivity. }
      apply (split_at_unique is_watch_start) in Hsplit as (<- & _ & _);
        [| | | reflexivity].
      2: { rewrite existsb_app,
             (quiet_excludes_watch_start _ Hlocated_quiet), Hc_start.
           reflexivity. }
      2: { apply quiet_excludes_watch_start, Hq. }
      exists located, t_create, w1, w2, created. auto.
    + exfalso. rewrite Ht in Heq.
      assert (Hall : existsb is_watch_start (located ++ t_create ++ t_rest)
                     = false).
      { rewrite !existsb_app,
          (quiet_excludes_watch_start _ Hlocated_quiet), Hc_start,
          (quiet_excludes_watch_start _ Hq). reflexivity. }
      rewrite Heq, existsb_app in Hall. simpl in Hall.
      rewrite orb_true_r in Hall. discriminate.
Qed.

(** ** The fork repository id of a create request *)

(** C9, as the code has it: [forkRepoId] is the id of the head repository
    when the head repository is a fork and undefined otherwise, whatever the
    base repository is; a run that issues a create call has passed the fork
    skip, so the request carries no [fork_repo_id]. *)
Theorem fork_repo_id_follows_head_fork fuel w url body reply :
  In (HerokuPost url body reply) (trace_of (run inputs context fuel w)) ->
  forkRepoId context =
    (if Context.head_repo_fork context
     then Some (Context.head_repo_id context) else None)
  /\ CreateBody.fork_repo_id body = forkRepoId context
  /\ Context.head_repo_fork context = false
  /\ CreateBody.fork_repo_id body = None.
Proof.
  intros Hin. split; [reflexivity |].
  apply in_split in Hin as (pre & post & Heq).
  assert (Hbody : CreateBody.fork_repo_id body = forkRepoId context).
  { destruct (run_trace_shape fuel w)
      as [Hquiet | (before & reviewApps & tail & w1 & w2 & t_create & c
                    & t_rest & Ht & Hbefore & Htail & _ & _ & Hcreate
                    & Hrest)].
    { exfalso.
      exact (trace_with_create_is_not_quiet _ _ _ _ Heq eq_refl Hquiet). }
    set (located := before ++ HerokuGetReviewApps apiUrl (Resolved reviewApps)
                           :: tail) in *.
    assert (Hlocated : existsb is_create located = false).
    { unfold located. rewrite existsb_app.
      rewrite (quiet_excludes_create _
                 (forallb_weaken _ _ _ destroy_phase_event_quiet Hbefore)).
      destruct Htail as [-> | ->]; reflexivity. }
    assert (Hrest_create : existsb is_create t_rest = false).
    { destruct Hrest as [(created & rest & _ & -> & Hq) | (_ & Hq)].
      - simpl. apply quiet_excludes_create, Hq.
      - apply quiet_excludes_create, Hq. }
    pose proof (createReviewApp_events w1) as Hevents.
    rewrite Hcreate in Hevents. cbv zeta in Hevents.
    unfold trace_of in Hevents. simpl in Hevents.
    destruct Hevents
      as (_ & _ & [Hnone | (archiveUrl & creply & rest_c & -> & Hrest_c)]).
    { exfalso. rewrite Ht in Heq.
      assert (H : existsb is_create (located ++ t_create ++ t_rest) = false)
        by (rewrite !existsb_app, Hlocated, Hnone, Hrest_create;
            reflexivity).
      rewrite Heq, existsb_app in H. simpl in H.
      rewrite orb_true_r in H. discriminate. }
    assert (Hsplit :
              (located
               ++ [CoreStartGroup "Creating new review app";
                   DownloadTarballArchive archiveBody (Resolved archiveUrl)])
              ++ HerokuPost "/review-apps" (createBody archiveUrl) creply
              :: (rest_c ++ t_rest)
              = pre ++ HerokuPost url body reply :: post).
    { rewrite <- Heq, Ht. rewrite <- !app_assoc. reflexivity. }
    apply (split_at_unique is_create) in Hsplit as (_ & Hevent & _);
      [| | | reflexivity].
    2: { rewrite existsb_app, Hlocated. reflexivity. }
    2: { rewrite existsb_app, Hrest_c, Hrest_create. reflexivity. }
    inversion Hevent. reflexivity. }
  split; [exact Hbody |].
  destruct (Context.head_repo_fork context) eqn:Hfork.
  - exfalso.
    apply (trace_with_create_is_not_quiet _ _ _ _ Heq eq_refl).
    apply run_quiet_outside_reconciling.
    intros (_ & Hnofork & _). unfold forkRepo in Hnofork. congruence.
  - split; [reflexivity |]. rewrite Hbody. unfold forkRepoId, forkRepo.
    rewrite Hfork. reflexivity.
Qed.

(** ** Validation *)


(** X16. A rejected location at the start of the closing or of the
    reconciling path fails the run with the message of the rejection; the
    list call is the only remote call of the run. *)
Theorem first_location_rejected_fails_run fuel w w1 err :
  eventName context = VALID_EVENT ->
  forkRepo context = false ->
  heroku_get_review_apps apiUrl w = (w1, Rejected err) ->
  run inputs context fuel w =
    (w1,
     [HerokuGetReviewApps apiUrl (Rejected err);
      CoreError (toString err);
      CoreSetFailed (JsError.message err)],
     Returned tt).
Proof.
  intros Hev Hfork Hlist.
  assert (Hfind : findReviewApp' w =
            (w1, [HerokuGetReviewApps apiUrl (Rejected err)], Thrown err))
    by (rewrite findReviewApp_run, Hlist; reflexivity).
  unfold run, run_try. rewrite Hev, String.eqb_refl, Hfork.
  cbn [negb]. cbv iota.
  destruct ("closed" =? action context)%string.
  - unfold close_review_app.
    rewrite (try_catch_bind_thrown _ _ _ _ _ _ _ Hfind). reflexivity.
  - rewrite (try_catch_bind_thrown _ _ _ _ _ _ _ Hfind). reflexivity.
Qed.

(** ** The locator *)

Lemma find_first {A : Type} (f : A -> bool) (l : list A) x :
  find f l = Some x ->
  f x = true
  /\ exists before after,
       l = before ++ x :: after
       /\ forall y, In y before -> f y = false.
Proof.
  induction l as [| a l IH]; simpl; [discriminate |].
  destruct (f a) eqn:Ha.
  - intros H. inversion H; subst. split; [exact Ha |].
    exists [], l. split; [reflexivity | intros y []].
  - intros H. destruct (IH H) as (Hx & before & after & -> & Hbefore).
    split; [exact Hx |]. exists (a :: before), after.
    split; [reflexivity |]. intros y [<- | Hy]; auto.
Qed.

(** X3. The locator returns the first entry of the listed review apps
    whose PR number is that of the event, and absent only when the list has
    no entry of that PR; it never returns the review app of another PR. *)
Theorem located_review_app_is_first_of_pr w w1 t found :
  findReviewApp' w = (w1, t, Returned found) ->
  exists reviewApps,
    heroku_get_review_apps apiUrl w = (w1, Resolved reviewApps)
    /\ match found with
       | Some app =>
           ReviewApp.pr_number app = prNumber context
           /\ exists before after,
                reviewApps = before ++ app :: after
                /\ forall other,
                     In other before ->
                     ReviewApp.pr_number other <> prNumber context
       | None =>
           forall other,
             In other reviewApps ->
             ReviewApp.pr_number other <> prNumber context
       end.
Proof.
  intros Hfind.
  destruct (findReviewApp_returned _ _ _ _ Hfind)
    as (reviewApps & Hlist & _ & Hfound).
  exists reviewApps. split; [exact Hlist |].
  destruct found as [app |]; symmetry in Hfound.
  - apply find_first in Hfound as (Happ & before & after & -> & Hbefore).
    split; [apply Z.eqb_eq, Happ |].
    exists before, after. split; [reflexivity |].
    intros other Hin. apply Z.eqb_neq, Hbefore, Hin.
  - intros other Hin. apply Z.eqb_neq.
    exact (find_none _ _ Hfound other Hin).
Qed.

(** ** The status gate of the watcher *)

(** X13. An iteration queries the builds only for a review app that is
    past the status gate and has an application: with status pending,
    creating or deleting it returns not finished, with another status and no
    application it throws the unexpected-status error quoting the status,
    and in both cases nothing is called. *)
Theorem status_gate_precedes_build_query w app :
  ((ReviewApp.status app = "pending"
    \/ ReviewApp.status app = "creating"
    \/ ReviewApp.status app = "deleting") ->
   check' (Some app) w = (w, [], Returned false))
  /\ (ReviewApp.status app <> "pending" ->
      ReviewApp.status app <> "creating" ->
      ReviewApp.status app <> "deleting" ->
      ReviewApp.app app = None ->
      check' (Some app) w =
        (w, [],
         Thrown (Error ("Unexpected app status: " ++ dquote
                        ++ ReviewApp.status app ++ dquote)%string))).
Proof.
  split.
  - intros Hgate. unfold checkBuildStatusForReviewApp.
    destruct Hgate as [-> | [-> | ->]]; reflexivity.
  - intros Hp Hc Hd Happ. unfold checkBuildStatusForReviewApp.
    assert (E1 : ("pending" =? ReviewApp.status app)%string = false)
      by (apply String.eqb_neq; congruence).
    assert (E2 : ("creating" =? ReviewApp.status app)%string = false)
      by (apply String.eqb_neq; congruence).
    assert (E3 : ("deleting" =? ReviewApp.status app)%string = false)
      by (apply String.eqb_neq; congruence).
    rewrite E1, E2, E3, Happ. reflexivity.
Qed.

(** ** Failures around the create call *)

(** X11. A rejected destroy does not fail the run: the rejection is
    caught and published as a notice, and the destroy-wait loop starts as
    after a destroy that resolved. *)
Theorem rejected_destroy_is_tolerated fuel app w w1 err :
  heroku_delete ("/apps/" ++ ReviewApp.id app) w = (w1, Rejected err) ->
  destroy_existing inputs context fuel (Some app) w =
    prepend
      [HerokuDelete ("/apps/" ++ ReviewApp.id app) (Rejected err);
       CoreNotice ("Error destroying app: " ++ toString err)%string]
      (destroy_wait_loop inputs context fuel "deleting" w1).
Proof.
  intros Hdelete. unfold destroy_existing. cbv zeta.
  set (url := ("/apps/" ++ ReviewApp.id app)%string) in *.
  assert (Hcaught :
    try_catch (await (heroku_delete url) (HerokuDelete url))
      (fun err0 => emit (CoreNotice ("Error destroying app: "
                                     ++ toString err0)%string)) w
    = (w1,
       [HerokuDelete url (Rejected err);
        CoreNotice ("Error destroying app: " ++ toString err)%string],
       Returned tt)).
  { unfold try_catch, await, emit. rewrite Hdelete. reflexivity. }
  rewrite (bind_returned _ _ _ _ _ _ Hcaught). reflexivity.
Qed.

(** X10. When the archive cannot be fetched no create call is issued.
    The rejection is rethrown unchanged unless it carries status code 409;
    with 409 it is taken for the duplicate signal like a rejected create,
    and the locator decides. *)
Theorem archive_failure_prevents_create w w1 err :
  downloadTarballArchive archiveBody w = (w1, Rejected err) ->
  existsb is_create (trace_of (createReviewApp inputs context w)) = false
  /\ (JsError.statusCode err <> Some 409%Z ->
      createReviewApp inputs context w =
        (w1,
         [CoreStartGroup "Creating new review app";
          DownloadTarballArchive archiveBody (Rejected err)],
         Thrown err))
  /\ (JsError.statusCode err = Some 409%Z ->
      forall w2 t2 found,
        findReviewApp' w1 = (w2, t2, Returned found) ->
        createReviewApp inputs context w =
          (w2,
           [CoreStartGroup "Creating new review app";
            DownloadTarballArchive archiveBody (Rejected err)]
           ++ recovery ++ t2,
           match found with
           | Some existing => Returned existing
           | None =>
               Thrown (Error "Previously got status 409 but no app found")
           end)).
Proof.
  intros Hdownload.
  assert (Htry : createReviewApp_try inputs context w =
            (w1,
             [CoreStartGroup "Creating new review app";
              DownloadTarballArchive archiveBody (Rejected err)],
             Thrown err))
    by (rewrite createReviewApp_try_run, Hdownload; reflexivity).
  split; [| split].
  - unfold createReviewApp. rewrite (try_catch_thrown _ _ _ _ _ _ Htry).
    rewrite trace_of_prepend, existsb_app.
    pose proof (createReviewApp_catch_events err w1) as Hc.
    replace (existsb is_create
               (trace_of (createReviewApp_catch inputs context err w1)))
      with false; [reflexivity |].
    symmetry. revert Hc. apply forallb_excludes. intros e H.
    apply andb_true_iff in H as [H _]. apply andb_true_iff in H as [H _].
    apply andb_true_iff in H as [H _]. apply negb_true_iff in H. exact H.
  - intros Hcode. exact (createReviewApp_rethrows _ _ _ _ Htry Hcode).
  - intros Hcode w2 t2 found Hagain.
    exact (createReviewApp_relocates _ _ _ _ _ _ _ Htry Hcode Hagain).
Qed.

(** ** One turn of the watcher's loop *)

Lemma watch_loop_step fuel w :
  waitReviewAppUpdated_loop inputs context (S fuel) w =
    match findReviewApp' w with
    | (w1, t1, Returned reviewApp) =>
        match check' reviewApp w1 with
        | (w2, t2, Returned isFinished) =>
            prepend (t1 ++ t2 ++ [WaitSeconds 5])
              (if isFinished
               then (elapse 5 w2, [], Returned reviewApp)
               else waitReviewAppUpdated_loop inputs context fuel
                      (elapse 5 w2))
        | (w2, t2, Thrown err) => (w2, t1 ++ t2, Thrown err)
        | (w2, t2, Pending) => (w2, t1 ++ t2, Pending)
        end
    | (w1, t1, Thrown err) => (w1, t1, Thrown err)
    | (w1, t1, Pending) => (w1, t1, Pending)
    end.
Proof.
  cbn [waitReviewAppUpdated_loop].
  destruct (findReviewApp' w) as [[w1 t1] [reviewApp | err |]] eqn:Hfind.
  - rewrite (bind_returned _ _ _ _ _ _ Hfind).
    destruct (check' reviewApp w1) as [[w2 t2] [isFinished | err |]]
      eqn:Hcheck.
    + rewrite (bind_returned _ _ _ _ _ _ Hcheck).
      unfold bind at 1. unfold waitSeconds at 1.
      destruct isFinished.
      * unfold ret, prepend, world_of, trace_of, completion_of. simpl.
        rewrite app_nil_r. reflexivity.
      * destruct (waitReviewAppUpdated_loop inputs context fuel (elapse 5 w2))
          as [[w3 t3] r].
        unfold prepend, world_of, trace_of, completion_of. simpl.
        rewrite <- !app_assoc. reflexivity.
    + rewrite (bind_thrown _ _ _ _ _ _ Hcheck). reflexivity.
    + rewrite (bind_pending _ _ _ _ _ Hcheck). reflexivity.
  - apply bind_thrown, Hfind.
  - apply bind_pending, Hfind.
Qed.

(** ** Errors under the watcher are not retried *)

Lemma loop_stops_at_fault n :
  forall fuel w t w' w'' t' err,
    keeps_polling inputs context n w t w' ->
    bind findReviewApp' check' w' = (w'', t', Thrown err) ->
    n < fuel ->
    waitReviewAppUpdated_loop inputs context fuel w =
      (w'', t ++ t', Thrown err).
Proof.
  induction n as [| n IH]; intros fuel w t w' w'' t' err Hpoll Hfault Hfuel.
  - inversion Hpoll; subst.
    destruct fuel as [| fuel]; [lia |]. rewrite watch_loop_step.
    unfold bind in Hfault.
    destruct (findReviewApp' w') as [[w1 t1] [reviewApp | err1 |]];
      [| inversion Hfault; reflexivity | discriminate].
    destruct (check' reviewApp w1) as [[w2 t2] [isFinished | err2 |]];
      [discriminate | inversion Hfault; reflexivity | discriminate].
  - inversion Hpoll as [| n0 wa w1 t1 reviewApp w2 t2 w3 t3 Hfind Hcheck Hrest];
      subst.
    destruct fuel as [| fuel]; [lia |]. rewrite watch_loop_step.
    rewrite Hfind, Hcheck.
    rewrite (IH fuel _ _ _ _ _ _ Hrest Hfault) by lia.
    rewrite prepend_triple, <- !app_assoc. reflexivity.
Qed.

(** X12. Errors under the watcher are not retried: when an iteration,
    the first check or one of the loop, throws (the location is rejected,
    the review app has an unexpected status, the build query is rejected,
    the build has failed), the watcher ends with that error without
    sleeping again, and the run, which had created the review app, returns
    marked failed with the message of the error. *)
Theorem watcher_error_fails_run fuel w0 w1 t1 app w2 t2 w3 t3 created
  w4 t4 w5 t5 err :
  reconciling context ->
  findReviewApp' w0 = (w1, t1, Returned app) ->
  destroy_existing inputs context fuel app w1 = (w2, t2, Returned tt) ->
  createReviewApp inputs context w2 = (w3, t3, Returned created) ->
  reaches_iteration inputs context fuel w3 t4 w4 ->
  bind findReviewApp' check' w4 = (w5, t5, Thrown err) ->
  waitReviewAppUpdated inputs context fuel w3 = (w5, t4 ++ t5, Thrown err)
  /\ run inputs context fuel w0 =
       (w5,
        t1 ++ t2 ++ t3 ++ (t4 ++ t5)
        ++ [CoreError (toString err); CoreSetFailed (JsError.message err)],
        Returned tt).
Proof.
  intros Hrec Hfind Hdestroy Hcreate Hreach Hfault.
  assert (Hwatch : waitReviewAppUpdated inputs context fuel w3 =
                     (w5, t4 ++ t5, Thrown err)).
  { unfold waitReviewAppUpdated. unfold bind at 1. unfold emit at 1.
    inversion Hreach
      as [wa | n wa wb tb reviewApp wc tc isFinished wd td Hf Hc Hpoll Hn];
      subst.
    - unfold bind in Hfault. unfold bind at 1.
      destruct (findReviewApp' w4) as [[wb tb] [reviewApp | err1 |]];
        [| inversion Hfault; reflexivity | discriminate].
      unfold bind at 1.
      destruct (check' reviewApp wb) as [[wc tc] [isFinished | err2 |]];
        [discriminate | inversion Hfault; reflexivity | discriminate].
    - rewrite (bind_returned _ _ _ _ _ _ Hf).
      rewrite (bind_returned _ _ _ _ _ _ Hc).
      rewrite (bind_thrown _ _ _ _ _ _
                 (loop_stops_at_fault _ _ _ _ _ _ _ _ Hpoll Hfault Hn)).
      rewrite !prepend_triple. simpl. rewrite <- !app_assoc. reflexivity. }
  split; [exact Hwatch |].
  rewrite (run_after_create fuel _ _ _ _ _ _ _ _ _
             Hrec Hfind Hdestroy Hcreate).
  unfold watch_and_output.
  rewrite (try_catch_bind_thrown _ _ _ _ _ _ _ Hwatch).
  unfold run_catch, bind, emit, prepend, world_of, trace_of, completion_of.
  simpl. rewrite <- !app_assoc. reflexivity.
Qed.

(** ** The watcher when the build has succeeded *)

Lemma watch_loop_returned fuel :
  forall w w' t reviewApp,
    waitReviewAppUpdated_loop inputs context fuel w
      = (w', t, Returned reviewApp) ->
    exists polled app ref,
      reviewApp = Some app
      /\ ReviewApp.app app = Some ref
      /\ t = polled ++ [WaitSeconds 5]
      /\ forallb is_poll_event polled = true
      /\ 1 <= length (filter is_locate polled).
Proof.
  induction fuel as [| fuel IH]; intros w w' t reviewApp; [discriminate |].
  rewrite watch_loop_step.
  destruct (findReviewApp_trace w) as [reply Ht1].
  destruct (findReviewApp' w) as [[w1 t1] [located_app | err |]];
    [| discriminate | discriminate].
  change (t1 = [HerokuGetReviewApps apiUrl reply]) in Ht1.
  pose proof (check_events located_app w1) as Hevents.
  destruct (check' located_app w1) as [[w2 t2] [isFinished | err |]] eqn:Hcheck;
    [| discriminate | discriminate].
  change (forallb is_poll_event t2 = true) in Hevents.
  destruct isFinished.
  - rewrite prepend_triple, app_nil_r. intros H. inversion H; subst.
    destruct reviewApp as [app |]; [| discriminate].
    destruct (check_true_inv _ _ _ _ Hcheck)
      as (ref & _ & _ & _ & _ & _ & Happ & _).
    exists ([HerokuGetReviewApps apiUrl reply] ++ t2), app, ref.
    split; [reflexivity |]. split; [exact Happ |].
    split; [rewrite <- app_assoc; reflexivity |].
    split; [simpl; exact Hevents |]. simpl. lia.
  - destruct (waitReviewAppUpdated_loop inputs context fuel (elapse 5 w2))
      as [[w3 t3] r] eqn:Hloop.
    rewrite prepend_triple. intros H. inversion H; subst.
    destruct (IH _ _ _ _ Hloop)
      as (polled & app & ref & -> & Happ & -> & Hpolled & Hcount).
    exists (([HerokuGetReviewApps apiUrl reply] ++ t2 ++ [WaitSeconds 5])
            ++ polled), app, ref.
    split; [reflexivity |]. split; [exact Happ |].
    split; [rewrite <- !app_assoc; reflexivity |].
    split.
    + rewrite !forallb_app, Hevents, Hpolled. reflexivity.
    + simpl. lia.
Qed.

(** X5. The watcher never returns at once: when it returns the details
    of the application it has located the review app at least twice (the
    first check and one turn of the loop, which runs even if the first check
    was finished), its last three events are a sleep of five seconds, the
    closing of its group and the details query of an application, and
    before them it only located, queried builds and slept. *)
Theorem watcher_returns_after_a_sleep fuel w w' t details :
  waitReviewAppUpdated inputs context fuel w = (w', t, Returned details) ->
  exists polled ref,
    t = CoreStartGroup "Ensure review app is up to date"
        :: polled
        ++ [WaitSeconds 5; CoreEndGroup;
            HerokuGetApp ("/apps/" ++ AppRef.id ref) (Resolved details)]
    /\ forallb is_poll_event polled = true
    /\ 2 <= length (filter is_locate polled).
Proof.
  unfold waitReviewAppUpdated. unfold bind at 1. unfold emit at 1.
  destruct (findReviewApp_trace w) as [reply Ht1].
  destruct (findReviewApp' w) as [[w1 t1] [first_app | err |]] eqn:Hfind.
  2: { rewrite (bind_thrown _ _ _ _ _ _ Hfind). discriminate. }
  2: { rewrite (bind_pending _ _ _ _ _ Hfind). discriminate. }
  change (t1 = [HerokuGetReviewApps apiUrl reply]) in Ht1.
  rewrite (bind_returned _ _ _ _ _ _ Hfind).
  pose proof (check_events first_app w1) as Hevents.
  destruct (check' first_app w1) as [[w2 t2] [isFinished | err |]] eqn:Hcheck.
  2: { rewrite (bind_thrown _ _ _ _ _ _ Hcheck). discriminate. }
  2: { rewrite (bind_pending _ _ _ _ _ Hcheck). discriminate. }
  change (forallb is_poll_event t2 = true) in Hevents.
  rewrite (bind_returned _ _ _ _ _ _ Hcheck).
  destruct (waitReviewAppUpdated_loop inputs context fuel w2)
    as [[w3 t3] [reviewApp | err |]] eqn:Hloop.
  2: { rewrite (bind_thrown _ _ _ _ _ _ Hloop). discriminate. }
  2: { rewrite (bind_pending _ _ _ _ _ Hloop). discriminate. }
  rewrite (bind_returned _ _ _ _ _ _ Hloop).
  destruct (watch_loop_returned _ _ _ _ _ Hloop)
    as (polled & app & ref & -> & Happ & -> & Hpolled & Hcount).
  unfold bind at 1. unfold emit at 1.
  unfold reviewApp_app_id. rewrite Happ.
  unfold bind at 1. unfold ret at 1. unfold getAppDetails. cbv zeta.
  unfold await.
  destruct (heroku_get_app ("/apps/" ++ AppRef.id ref) w3)
    as [w4 [d | err]]; rewrite !prepend_triple; simpl;
    intros H; inversion H; subst.
  exists ([HerokuGetReviewApps apiUrl reply] ++ t2 ++ polled), ref.
  split; [simpl; rewrite <- !app_assoc; reflexivity |].
  split.
  - simpl. rewrite forallb_app, Hevents, Hpolled. reflexivity.
  - simpl. rewrite filter_app, length_app. lia.
Qed.

(** X6. A reconciling run whose watcher returns the details of the
    application publishes its id and its web url as the outputs [app_id] and
    [app_web_url], in that order and as its last events, and returns. *)
Theorem successful_run_publishes_details fuel w0 w1 t1 app w2 t2 w3 t3
  created w4 t4 details :
  reconciling context ->
  findReviewApp' w0 = (w1, t1, Returned app) ->
  destroy_existing inputs context fuel app w1 = (w2, t2, Returned tt) ->
  createReviewApp inputs context w2 = (w3, t3, Returned created) ->
  waitReviewAppUpdated inputs context fuel w3 = (w4, t4, Returned details) ->
  run inputs context fuel w0 =
    (w4,
     t1 ++ t2 ++ t3 ++ t4
     ++ [CoreStartGroup "Output app details";
         CoreSetOutput "app_id" (AppDetails.id details);
         CoreSetOutput "app_web_url" (AppDetails.web_url details);
         CoreEndGroup],
     Returned tt).
Proof.
  intros Hrec Hfind Hdestroy Hcreate Hwatch.
  rewrite (run_after_create fuel _ _ _ _ _ _ _ _ _
             Hrec Hfind Hdestroy Hcreate).
  unfold watch_and_output.
  rewrite (try_catch_bind_returned _ _ _ _ _ _ _ Hwatch).
  unfold try_catch, outputAppDetails, bind, emit, prepend,
    world_of, trace_of, completion_of.
  simpl. rewrite <- !app_assoc. reflexivity.
Qed.

(** ** The destroy-wait loop, turn by turn *)

(** X14. The destroy-wait loop goes round as long as a location sees the
    review app deleting or does not find it, sleeping five seconds a turn;
    it returns at the first location that sees the review app with another
    status, after one more sleep.  With no more fuel than turns of the first
    kind it is still polling. *)
Theorem destroy_wait_returns_at_first_other_status n :
  forall fuel w t w',
    keeps_waiting inputs context n w t w' ->
    (fuel <= n ->
     completion_of (destroy_wait_loop inputs context fuel "deleting" w)
     = Pending)
    /\ (forall w'' t' seen,
          findReviewApp' w' = (w'', t', Returned (Some seen)) ->
          ReviewApp.status seen <> "deleting" ->
          n < fuel ->
          destroy_wait_loop inputs context fuel "deleting" w =
            (elapse 5 w'', t ++ t' ++ [WaitSeconds 5], Returned tt)).
Proof.
  induction n as [| n IH]; intros fuel w t w' Hwait.
  - inversion Hwait; subst. split.
    + intros Hfuel. assert (fuel = 0) by lia. subst fuel. reflexivity.
    + intros w'' t' seen Hfind Hstatus Hfuel.
      destruct fuel as [| fuel]; [lia |].
      apply (destroy_wait_exits_on_other_status _ _ _ _ _ _ Hfind Hstatus).
  - inversion Hwait as [| n0 wa w1 t1 reviewApp w2 t2 Hfind Hstatus Hrest];
      subst.
    assert (Hturn : forall fuel',
              destroy_wait_loop inputs context (S fuel') "deleting" w =
                prepend (t1 ++ [WaitSeconds 5])
                  (destroy_wait_loop inputs context fuel' "deleting"
                     (elapse 5 w1))).
    { intros fuel'. rewrite destroy_wait_loop_step, Hfind. cbv zeta.
      destruct reviewApp as [reviewApp |]; [rewrite Hstatus |]; reflexivity. }
    destruct (IH (pred fuel) _ _ _ Hrest) as [IHpending IHreturn].
    split.
    + intros Hfuel. destruct fuel as [| fuel]; [reflexivity |].
      rewrite Hturn. unfold prepend, completion_of at 1. simpl.
      apply IHpending. lia.
    + intros w'' t' seen Hseen Hother Hfuel.
      destruct fuel as [| fuel]; [lia |].
      rewrite Hturn. simpl in IHreturn.
      rewrite (IHreturn _ _ _ Hseen Hother) by lia.
      rewrite prepend_triple, <- !app_assoc. reflexivity.
Qed.

(** ** What the remote phases emit *)

Section Alphabet.
Variable p : Event -> bool.
Hypothesis p_accepts :
  forall e, is_silent e = true -> is_fixed_interval e = true -> p e = true.

Local Ltac accept :=
  simpl; repeat (rewrite p_accepts by reflexivity); reflexivity.

Lemma accepted_emit e (w : W) :
  is_silent e = true -> is_fixed_interval e = true ->
  forallb p (trace_of (emit e w)) = true.
Proof.
  intros Hs Hf. unfold emit, trace_of. simpl.
  rewrite (p_accepts e Hs Hf). reflexivity.
Qed.

Lemma accepted_findReviewApp w :
  forallb p (trace_of (findReviewApp' w)) = true.
Proof. destruct (findReviewApp_trace w) as [reply ->]. accept. Qed.

Lemma accepted_check app w :
  forallb p (trace_of (check' app w)) = true.
Proof.
  destruct app as [app |]; [| reflexivity].
  unfold checkBuildStatusForReviewApp.
  destruct (("pending" =? ReviewApp.status app)%string
            || ("creating" =? ReviewApp.status app)%string); [reflexivity |].
  destruct ("deleting" =? ReviewApp.status app)%string; [reflexivity |].
  destruct (ReviewApp.app app) as [ref |]; [| reflexivity].
  cbv zeta. apply forallb_bind.
  - apply forallb_await. intros reply. apply p_accepts; reflexivity.
  - intros latestBuilds w1. unfold switch_build_status.
    destruct (find matches_version latestBuilds) as [build |];
      [| reflexivity].
    destruct (Build.status build =? "succeeded")%string; [reflexivity |].
    destruct (Build.status build =? "pending")%string; reflexivity.
Qed.

Lemma accepted_waitSeconds (w : W) :
  forallb p (trace_of (waitSeconds 5 w)) = true.
Proof. unfold waitSeconds, trace_of. accept. Qed.

Lemma accepted_watch_loop fuel :
  forall w,
    forallb p (trace_of (waitReviewAppUpdated_loop inputs context fuel w))
    = true.
Proof.
  induction fuel as [| fuel IH]; intros w; [reflexivity |].
  cbn [waitReviewAppUpdated_loop].
  apply forallb_bind; [apply accepted_findReviewApp |]. intros reviewApp w1.
  apply forallb_bind; [apply accepted_check |]. intros isFinished w2.
  apply forallb_bind; [apply accepted_waitSeconds |]. intros _ w3.
  destruct isFinished; [reflexivity | apply IH].
Qed.

Lemma accepted_waitReviewAppUpdated fuel w :
  forallb p (trace_of (waitReviewAppUpdated inputs context fuel w)) = true.
Proof.
  unfold waitReviewAppUpdated.
  apply forallb_bind; [apply accepted_emit; reflexivity |]. intros _ w0.
  apply forallb_bind; [apply accepted_findReviewApp |]. intros reviewApp w1.
  apply forallb_bind; [apply accepted_check |]. intros _ w2.
  apply forallb_bind; [apply accepted_watch_loop |]. intros reviewApp0 w3.
  apply forallb_bind; [apply accepted_emit; reflexivity |]. intros _ w4.
  apply forallb_bind;
    [destruct reviewApp0 as [[? ? ? [?|] ?] |]; reflexivity |].
  intros id w5. apply forallb_await. intros reply.
  apply p_accepts; reflexivity.
Qed.

Lemma accepted_destroy_wait_loop fuel :
  forall destroyStatus w,
    forallb p
      (trace_of (destroy_wait_loop inputs context fuel destroyStatus w))
    = true.
Proof.
  induction fuel as [| fuel IH]; intros destroyStatus w; [reflexivity |].
  cbn [destroy_wait_loop].
  apply forallb_bind; [apply accepted_findReviewApp |]. intros reviewApp w1.
  cbv zeta.
  apply forallb_bind; [apply accepted_waitSeconds |]. intros _ w2.
  destruct (_ =? "deleting")%string; [apply IH | reflexivity].
Qed.

Lemma accepted_destroy_existing fuel app w :
  forallb p (trace_of (destroy_existing inputs context fuel app w)) = true.
Proof.
  destruct app as [app |]; [| reflexivity].
  unfold destroy_existing. cbv zeta.
  apply forallb_bind; [| intros _ w1; apply accepted_destroy_wait_loop].
  apply forallb_try_catch.
  - apply forallb_await. intros reply. apply p_accepts; reflexivity.
  - intros err w1. apply accepted_emit; reflexivity.
Qed.

Lemma accepted_createReviewApp w :
  forallb p (trace_of (createReviewApp inputs context w)) = true.
Proof.
  unfold createReviewApp. apply forallb_try_catch.
  - unfold createReviewApp_try.
    apply forallb_bind; [apply accepted_emit; reflexivity |]. intros _ w0.
    cbv zeta.
    apply forallb_bind;
      [apply forallb_await; intros reply; apply p_accepts; reflexivity |].
    intros archiveUrl w1.
    apply forallb_bind;
      [apply forallb_await; intros reply; apply p_accepts; reflexivity |].
    intros app w2.
    apply forallb_bind; [apply accepted_emit; reflexivity |]. intros _ w3.
    reflexivity.
  - intros err w1. unfold createReviewApp_catch.
    destruct (statusCode_is_not err 409); [reflexivity |].
    apply forallb_bind; [apply accepted_emit; reflexivity |]. intros _ w2.
    apply forallb_bind; [apply accepted_emit; reflexivity |]. intros _ w3.
    apply forallb_bind; [apply accepted_findReviewApp |].
    intros [app |] w4; reflexivity.
Qed.

End Alphabet.

(** ** The polling interval *)

(** X7. Every sleep of every run lasts five seconds: the two polling
    loops have no other interval and no backoff. *)
Theorem every_sleep_is_five_seconds fuel (w : W) secs :
  In (WaitSeconds secs) (trace_of (run inputs context fuel w)) ->
  secs = 5%Z.
Proof.
  assert (Hall : forallb is_fixed_interval
                   (trace_of (run inputs context fuel w)) = true).
  { pose (ok := fun (e : Event) (_ : is_silent e = true)
                    (H : is_fixed_interval e = true) => H).
    unfold run. apply forallb_try_catch; [| reflexivity].
    unfold run_try.
    destruct (negb (eventName context =? VALID_EVENT)%string); [reflexivity |].
    destruct (forkRepo context); [reflexivity |].
    destruct ("closed" =? action context)%string.
    - unfold close_review_app.
      apply forallb_bind; [apply (accepted_findReviewApp _ ok) |].
      intros [app |] w1; [| reflexivity].
      cbv zeta. apply forallb_bind; [| reflexivity].
      apply forallb_await. reflexivity.
    - apply forallb_bind; [apply (accepted_findReviewApp _ ok) |].
      intros app w1.
      apply forallb_bind; [apply (accepted_destroy_existing _ ok) |].
      intros _ w2.
      apply forallb_bind; [apply (accepted_createReviewApp _ ok) |].
      intros _ w3.
      apply forallb_bind; [apply (accepted_waitReviewAppUpdated _ ok) |].
      intros updatedApp w4. reflexivity. }
  intros Hin. rewrite forallb_forall in Hall.
  apply Z.eqb_eq. exact (Hall _ Hin).
Qed.

(** ** Outputs and failure *)

Lemma silent_is_accepted :
  forall e, is_silent e = true -> is_fixed_interval e = true ->
            is_silent e = true.
Proof. auto. Qed.

Lemma outcome_bind {A : Type} (m : M W A) (k : A -> M W unit) w :
  forallb is_silent (trace_of (m w)) = true ->
  (forall a w1, ends_silently_or_with_outputs (k a w1)) ->
  ends_silently_or_with_outputs (bind m k w).
Proof.
  intros Hm Hk. unfold bind.
  destruct (m w) as [[w1 t1] [a | err |]].
  - destruct (Hk a w1) as (t0 & Ht0 & Hcase).
    destruct (k a w1) as [[w2 t2] r].
    unfold trace_of, completion_of in *. simpl in *.
    exists (t1 ++ t0). split; [rewrite forallb_app, Hm, Ht0; reflexivity |].
    destruct Hcase as [[-> Hr] | (app & -> & ->)].
    + left. auto.
    + right. exists app. rewrite app_assoc. auto.
  - exists t1. split; [exact Hm |]. left. split; [reflexivity | discriminate].
  - exists t1. split; [exact Hm |]. left. split; [reflexivity | discriminate].
Qed.

Lemma run_try_reconciling_outcome fuel w :
  reconciling context ->
  ends_silently_or_with_outputs (run_try inputs context fuel w).
Proof.
  intros Hrec. rewrite (run_try_reconciling fuel Hrec).
  apply outcome_bind;
    [apply (accepted_findReviewApp _ silent_is_accepted) |].
  intros app w1.
  apply outcome_bind;
    [apply (accepted_destroy_existing _ silent_is_accepted) |].
  intros _ w2.
  apply outcome_bind;
    [apply (accepted_createReviewApp _ silent_is_accepted) |].
  intros _ w3. unfold watch_and_output.
  pose proof (accepted_waitReviewAppUpdated _ silent_is_accepted fuel w3)
    as Hwatch.
  unfold bind.
  destruct (waitReviewAppUpdated inputs context fuel w3)
    as [[w4 t4] [details | err |]];
    change (forallb is_silent t4 = true) in Hwatch.
  - exists t4. split; [exact Hwatch |]. right. exists details.
    split; reflexivity.
  - exists t4. split; [exact Hwatch |]. left. split; [reflexivity | discriminate].
  - exists t4. split; [exact Hwatch |]. left. split; [reflexivity | discriminate].
Qed.

Lemma silent_excludes_output t :
  forallb is_silent t = true -> existsb is_set_output t = false.
Proof.
  apply forallb_excludes. intros e H.
  apply andb_true_iff in H as [H _]. apply negb_true_iff in H. exact H.
Qed.

Lemma silent_excludes_failure t :
  forallb is_silent t = true -> existsb is_set_failed t = false.
Proof.
  apply forallb_excludes. intros e H.
  apply andb_true_iff in H as [_ H]. apply negb_true_iff in H. exact H.
Qed.

Lemma no_output_outside_reconciling fuel w :
  ~ reconciling context ->
  existsb is_set_output (trace_of (run inputs context fuel w)) = false.
Proof.
  intros Hnot.
  apply (forallb_excludes (fun e => negb (is_set_output e)));
    [intros e H; apply negb_true_iff, H |].
  unfold run. apply forallb_try_catch; [| reflexivity].
  unfold run_try.
  destruct (eventName context =? VALID_EVENT)%string eqn:Hev; [| reflexivity].
  destruct (forkRepo context) eqn:Hfork; [reflexivity |].
  destruct ("closed" =? action context)%string eqn:Hact.
  - cbn [negb]. cbv iota. unfold close_review_app.
    apply forallb_bind; [apply forallb_findReviewApp; reflexivity |].
    intros [app |] w1; [| reflexivity].
    cbv zeta. apply forallb_bind; [| reflexivity].
    apply forallb_await. reflexivity.
  - exfalso. apply Hnot. apply String.eqb_eq in Hev.
    apply String.eqb_neq in Hact. unfold reconciling. repeat split; congruence.
Qed.

(** X8. Outputs and failure exclude each other: a run that sets an
    output has returned, is not marked failed, and ends with the four events
    of [outputAppDetails]; before them it set neither an output nor the
    failure mark.  So a failed run publishes no application. *)
Theorem outputs_exclude_failure fuel w :
  existsb is_set_output (trace_of (run inputs context fuel w)) = true ->
  run_failed (trace_of (run inputs context fuel w)) = false
  /\ completion_of (run inputs context fuel w) = Returned tt
  /\ exists t0 app,
       trace_of (run inputs context fuel w) = t0 ++ output_events app
       /\ forallb is_silent t0 = true.
Proof.
  intros Hout.
  assert (Hrec : reconciling context).
  { assert (Hdec : reconciling context \/ ~ reconciling context).
    { unfold reconciling.
      destruct (String.eqb_spec (eventName context) VALID_EVENT);
        [| right; tauto].
      destruct (forkRepo context); [right; intros (_ & H & _); discriminate |].
      destruct (String.eqb_spec (action context) "closed");
        [right; tauto | left; auto]. }
    destruct Hdec as [H | H]; [exact H |].
    rewrite (no_output_outside_reconciling fuel w H) in Hout. discriminate. }
  destruct (run_try_reconciling_outcome fuel w Hrec) as (t0 & Ht0 & Hcase).
  revert Hout. unfold run, try_catch.
  destruct (run_try inputs context fuel w) as [[w1 t1] r].
  unfold trace_of, completion_of in Hcase. simpl in Hcase.
  destruct Hcase as [[-> Hr] | (app & -> & ->)].
  - destruct r as [[] | err |].
    + congruence.
    + unfold trace_of. simpl. rewrite existsb_app.
      rewrite (silent_excludes_output _ Ht0). discriminate.
    + unfold trace_of. simpl.
      rewrite (silent_excludes_output _ Ht0). discriminate.
  - intros _. unfold run_failed, trace_of, completion_of. simpl.
    split; [| split; [reflexivity |]].
    + rewrite existsb_app, (silent_excludes_failure _ Ht0). reflexivity.
    + exists t0, app. auto.
Qed.

(** ** What a create request carries *)

(** X9. Every create request of a run goes to [/review-apps] and carries
    the branch, the commit and the repository url of the head of the pull
    request, the pipeline id of the inputs, the number of the pull request
    and, as source, the url that the archive query for that commit
    returned just before it. *)
Theorem create_request_carries_event fuel w url body reply :
  In (HerokuPost url body reply) (trace_of (run inputs context fuel w)) ->
  url = "/review-apps"
  /\ CreateBody.branch body = Context.head_ref context
  /\ CreateBody.pipeline body = Inputs.heroku_pipeline_id inputs
  /\ CreateBody.source_blob_version body = Context.head_sha context
  /\ CreateBody.pr_number body = Context.number context
  /\ CreateBody.environment_GIT_REPO_URL body
     = Context.head_repo_html_url context
  /\ exists pre post,
       trace_of (run inputs context fuel w)
       = pre
         ++ [DownloadTarballArchive
               (ArchiveBody.mk (Context.repo_owner context)
                  (Context.repo_repo context) (Context.head_sha context))
               (Resolved (CreateBody.source_blob_url body));
             HerokuPost url body reply]
         ++ post.
Proof.
  intros Hin. apply in_split in Hin as (pre & post & Heq).
  destruct (run_trace_shape fuel w)
    as [Hquiet | (before & reviewApps & tail & w1 & w2 & t_create & c
                  & t_rest & Ht & Hbefore & Htail & _ & _ & Hcreate
                  & Hrest)].
  { exfalso.
    exact (trace_with_create_is_not_quiet _ _ _ _ Heq eq_refl Hquiet). }
  set (located := before ++ HerokuGetReviewApps apiUrl (Resolved reviewApps)
                         :: tail) in *.
  assert (Hlocated : existsb is_create located = false).
  { unfold located. rewrite existsb_app.
    rewrite (quiet_excludes_create _
               (forallb_weaken _ _ _ destroy_phase_event_quiet Hbefore)).
    destruct Htail as [-> | ->]; reflexivity. }
  assert (Hrest_create : existsb is_create t_rest = false).
  { destruct Hrest as [(created & rest & _ & -> & Hq) | (_ & Hq)].
    - simpl. apply quiet_excludes_create, Hq.
    - apply quiet_excludes_create, Hq. }
  pose proof (createReviewApp_events w1) as Hevents.
  rewrite Hcreate in Hevents. cbv zeta in Hevents.
  unfold trace_of in Hevents. simpl in Hevents.
  destruct Hevents
    as (_ & _ & [Hnone | (archiveUrl & creply & rest_c & -> & Hrest_c)]).
  { exfalso. rewrite Ht in Heq.
    assert (H : existsb is_create (located ++ t_create ++ t_rest) = false)
      by (rewrite !existsb_app, Hlocated, Hnone, Hrest_create; reflexivity).
    rewrite Heq, existsb_app in H. simpl in H.
    rewrite orb_true_r in H. discriminate. }
  assert (Hsplit :
            (located
             ++ [CoreStartGroup "Creating new review app";
                 DownloadTarballArchive archiveBody (Resolved archiveUrl)])
            ++ HerokuPost "/review-apps" (createBody archiveUrl) creply
            :: (rest_c ++ t_rest)
            = pre ++ HerokuPost url body reply :: post).
  { rewrite <- Heq, Ht. rewrite <- !app_assoc. reflexivity. }
  apply (split_at_unique is_create) in Hsplit as (Hpre & Hevent & Hpost);
    [| | | reflexivity].
  2: { rewrite existsb_app, Hlocated. reflexivity. }
  2: { rewrite existsb_app, Hrest_c, Hrest_create. reflexivity. }
  inversion Hevent; subst url body reply.
  repeat (split; [reflexivity |]).
  exists (located ++ [CoreStartGroup "Creating new review app"]), post.
  rewrite Heq, <- Hpre. simpl. rewrite <- !app_assoc. reflexivity.
Qed.

(** ** The watcher, from a succeeded build to the details *)

Lemma loop_returns_when_finished n :
  forall fuel w t w' w1 t1 reviewApp w2 t2,
    keeps_polling inputs context n w t w' ->
    findReviewApp' w' = (w1, t1, Returned reviewApp) ->
    check' reviewApp w1 = (w2, t2, Returned true) ->
    n < fuel ->
    waitReviewAppUpdated_loop inputs context fuel w =
      (elapse 5 w2, t ++ t1 ++ t2 ++ [WaitSeconds 5], Returned reviewApp).
Proof.
  induction n as [| n IH];
    intros fuel w t w' w1 t1 reviewApp w2 t2 Hpoll Hfind Hcheck Hfuel.
  - inversion Hpoll; subst.
    destruct fuel as [| fuel]; [lia |].
    rewrite watch_loop_step, Hfind, Hcheck.
    rewrite prepend_triple, app_nil_r. reflexivity.
  - inversion Hpoll as [| n0 wa wb tb ra wc tc wd td Hf Hc Hrest]; subst.
    destruct fuel as [| fuel]; [lia |].
    rewrite watch_loop_step, Hf, Hc.
    rewrite (IH fuel _ _ _ _ _ _ _ _ Hrest Hfind Hcheck) by lia.
    rewrite prepend_triple, <- !app_assoc. reflexivity.
Qed.

(** X17. The watcher returns the details of the application of the
    review app it located last: after a first check that returned and [n]
    turns that resolved as not finished, a turn that finds the build of the
    commit succeeded is followed by one sleep and by the details query for
    the id of that review app's application, whose reply is returned. *)
Theorem watcher_returns_details_of_last_located fuel n w w1 t1 first w2 t2
  isFinished w3 t3 w4 t4 app ref w5 t5 w6 details :
  findReviewApp' w = (w1, t1, Returned first) ->
  check' first w1 = (w2, t2, Returned isFinished) ->
  keeps_polling inputs context n w2 t3 w3 ->
  findReviewApp' w3 = (w4, t4, Returned (Some app)) ->
  check' (Some app) w4 = (w5, t5, Returned true) ->
  ReviewApp.app app = Some ref ->
  heroku_get_app ("/apps/" ++ AppRef.id ref) (elapse 5 w5)
    = (w6, Resolved details) ->
  n < fuel ->
  waitReviewAppUpdated inputs context fuel w =
    (w6,
     CoreStartGroup "Ensure review app is up to date"
     :: t1 ++ t2 ++ (t3 ++ t4 ++ t5 ++ [WaitSeconds 5])
     ++ [CoreEndGroup;
         HerokuGetApp ("/apps/" ++ AppRef.id ref) (Resolved details)],
     Returned details).
Proof.
  intros Hfirst Hcheck1 Hpoll Hfind Hcheck Happ Hdetails Hfuel.
  unfold waitReviewAppUpdated. unfold bind at 1. unfold emit at 1.
  rewrite (bind_returned _ _ _ _ _ _ Hfirst).
  rewrite (bind_returned _ _ _ _ _ _ Hcheck1).
  rewrite (bind_returned _ _ _ _ _ _
             (loop_returns_when_finished _ _ _ _ _ _ _ _ _ _
                Hpoll Hfind Hcheck Hfuel)).
  unfold bind at 1. unfold emit at 1.
  unfold reviewApp_app_id. rewrite Happ.
  unfold bind at 1. unfold ret at 1. unfold getAppDetails. cbv zeta.
  unfold await. rewrite Hdetails.
  rewrite !prepend_triple. simpl. rewrite <- !app_assoc. reflexivity.
Qed.

(** ** A closed event *)

Lemma try_catch_bind_trace {A B : Type} (m : M W A) (k : A -> M W B) h w :
  exists rest,
    trace_of (try_catch (bind m k) h w) = trace_of (m w) ++ rest.
Proof.
  unfold try_catch, bind, trace_of.
  destruct (m w) as [[w1 t1] [a | err |]]; simpl.
  - destruct (k a w1) as [[w2 t2] [b | err |]]; simpl.
    + exists t2. reflexivity.
    + destruct (h err w2) as [[w3 t3] r]. simpl.
      exists (t2 ++ t3). rewrite app_assoc. reflexivity.
    + exists t2. reflexivity.
  - destruct (h err w1) as [[w3 t3] r]. simpl. exists t3. reflexivity.
  - exists []. rewrite app_nil_r. reflexivity.
Qed.

(** [createReviewApp] opens its group and asks for the archive of the
    commit, whatever follows. *)
Lemma createReviewApp_opening w :
  exists reply rest,
    trace_of (createReviewApp inputs context w)
    = CoreStartGroup "Creating new review app"
      :: DownloadTarballArchive archiveBody reply :: rest.
Proof.
  unfold createReviewApp, try_catch. rewrite createReviewApp_try_run.
  destruct (downloadTarballArchive archiveBody w) as [w1 [archiveUrl | err]].
  - destruct (heroku_post "/review-apps" (createBody archiveUrl) w1)
      as [w2 [app | err]].
    + eexists; eexists; reflexivity.
    + destruct (createReviewApp_catch inputs context err w2) as [[w3 t3] r].
      eexists; eexists; reflexivity.
  - destruct (createReviewApp_catch inputs context err w1) as [[w3 t3] r].
    eexists; eexists; reflexivity.
Qed.

(** The closing branch tests [context.action]: an event whose
    [payload.action] is closed, run under a step id that is not the string
    closed, is reconciled like an opened one.  With no review app found the
    run goes straight to [createReviewApp]. *)
Lemma closed_event_is_reconciled fuel w w1 t :
  eventName context = VALID_EVENT ->
  forkRepo context = false ->
  Context.payload_action context = "closed" ->
  action context <> "closed" ->
  findReviewApp' w = (w1, t, Returned None) ->
  run inputs context fuel w =
    prepend t
      (try_catch (_ <- createReviewApp inputs context ;;
                  watch_and_output inputs context fuel) run_catch w1)
  /\ exists reply rest,
       trace_of (run inputs context fuel w)
       = t ++ CoreStartGroup "Creating new review app"
           :: DownloadTarballArchive archiveBody reply :: rest.
Proof.
  intros Hev Hfork _ Hact Hfind.
  assert (Hrec : reconciling context) by (unfold reconciling; auto).
  assert (Hdestroy : destroy_existing inputs context fuel None w1
                     = (w1, [], Returned tt)) by reflexivity.
  pose proof (run_after_destroy fuel _ _ _ _ _ _ Hrec Hfind Hdestroy) as Hrun.
  rewrite app_nil_r in Hrun. split; [exact Hrun |].
  rewrite Hrun, trace_of_prepend.
  destruct (try_catch_bind_trace (createReviewApp inputs context)
              (fun _ => watch_and_output inputs context fuel) run_catch w1)
    as (rest & ->).
  destruct (createReviewApp_opening w1) as (reply & rest' & ->).
  exists reply, (rest' ++ rest). reflexivity.
Qed.

End Properties.

(** * The properties on concrete runs *)

(** ** C1: the review app disappears while the run waits for its destroy *)

(** A location that finds nothing, on a platform that lists no review app
    any more, leaves the loop where it was. *)
Lemma destroy_wait_on_empty_platform fuel :
  destroy_wait_loop sample_inputs (pr42 "synchronize") fuel "deleting"
    (scripted_world [] [] (Resolved (review_app_42 "creating")))
  = (scripted_world [] [] (Resolved (review_app_42 "creating")),
     concat (repeat [located []; WaitSeconds 5] fuel),
     Pending).
Proof.
  induction fuel as [| fuel IH]; [reflexivity |].
  assert (Habsent :
    findReviewApp sample_inputs (pr42 "synchronize")
      (scripted_world [] [] (Resolved (review_app_42 "creating")))
    = (scripted_world [] [] (Resolved (review_app_42 "creating")),
       [located []], Returned None)) by reflexivity.
  rewrite (destroy_wait_polls_again_on_absent _ _ fuel _ _ _ Habsent).
  change (elapse 5 (scripted_world [] [] (Resolved (review_app_42 "creating"))))
    with (scripted_world [] [] (Resolved (review_app_42 "creating"))).
  rewrite IH. reflexivity.
Qed.

(** C1. What the code does when the review app has disappeared: PR #42
    is synchronized, its review app is found and destroyed, and every later
    location finds no review app.  Whatever the fuel, the run is still in the
    destroy-wait loop: each turn locates nothing, keeps the status deleting
    and sleeps, and no create call is ever issued. *)
Theorem destroy_wait_never_ends_after_disappearance fuel :
  run sample_inputs (pr42 "synchronize") fuel
    (scripted_world [[review_app_42 "created"]] []
       (Resolved (review_app_42 "creating")))
  = (scripted_world [] [] (Resolved (review_app_42 "creating")),
     [located [review_app_42 "created"];
      HerokuDelete "/apps/ra-1" (Resolved tt)]
     ++ concat (repeat [located []; WaitSeconds 5] fuel),
     Pending).
Proof.
  unfold run.
  rewrite (run_try_reconciling sample_inputs (pr42 "synchronize") fuel)
    by (repeat split; discriminate).
  assert (Hfound :
    findReviewApp sample_inputs (pr42 "synchronize")
      (scripted_world [[review_app_42 "created"]] []
         (Resolved (review_app_42 "creating")))
    = (scripted_world [] [] (Resolved (review_app_42 "creating")),
       [located [review_app_42 "created"]],
       Returned (Some (review_app_42 "created")))) by reflexivity.
  rewrite (try_catch_bind_returned _ _ _ _ _ _ _ Hfound).
  assert (Hdestroy :
    destroy_existing sample_inputs (pr42 "synchronize") fuel
      (Some (review_app_42 "created"))
      (scripted_world [] [] (Resolved (review_app_42 "creating")))
    = (scripted_world [] [] (Resolved (review_app_42 "creating")),
       HerokuDelete "/apps/ra-1" (Resolved tt)
       :: concat (repeat [located []; WaitSeconds 5] fuel),
       Pending)).
  { unfold destroy_existing.
    assert (Hdelete :
      try_catch
        (await (heroku_delete ("/apps/" ++ ReviewApp.id (review_app_42 "created")))
               (HerokuDelete ("/apps/" ++ ReviewApp.id (review_app_42 "created"))))
        (fun err => emit (CoreNotice ("Error destroying app: " ++ toString err)))
        (scripted_world [] [] (Resolved (review_app_42 "creating")))
      = (scripted_world [] [] (Resolved (review_app_42 "creating")),
         [HerokuDelete "/apps/ra-1" (Resolved tt)], Returned tt))
      by reflexivity.
    cbv zeta. rewrite (bind_returned _ _ _ _ _ _ Hdelete).
    rewrite destroy_wait_on_empty_platform. reflexivity. }
  rewrite (try_catch_bind_pending _ _ _ _ _ _ Hdestroy). reflexivity.
Qed.

(** ** C5: a pull request is closed and has no review app *)

(** C5. What the code does at a closed event without review app.  The
    test of line 242 reads [context.action], the id of the running step, and
    not the action of the event: for every closed event run under a step id
    other than the string closed, the run records no missing-app error but
    goes on to [createReviewApp].  So when PR #42 is closed and has no
    review app, the run creates one, waits for its build and publishes it,
    and is not marked failed. *)
Theorem closed_event_without_app_creates_one :
  (forall (W : Type) (platform : Platform W) inputs context fuel (w w1 : W) t,
     eventName context = VALID_EVENT ->
     forkRepo context = false ->
     Context.payload_action context = "closed" ->
     action context <> "closed" ->
     findReviewApp inputs context w = (w1, t, Returned None) ->
     run inputs context fuel w =
       prepend t
         (try_catch (_ <- createReviewApp inputs context ;;
                     watch_and_output inputs context fuel) run_catch w1)
     /\ exists reply rest,
          trace_of (run inputs context fuel w)
          = t ++ CoreStartGroup "Creating new review app"
              :: DownloadTarballArchive
                   (ArchiveBody.mk (Context.repo_owner context)
                      (Context.repo_repo context) (Context.head_sha context))
                   reply
              :: rest)
  /\ Context.payload_action (pr42 "closed") = "closed"
  /\ Context.action (pr42 "closed") = step_id
  /\ run sample_inputs (pr42 "closed") 3 fresh_world
     = (scripted_world [] [] (Resolved (review_app_42 "creating")),
        [located []] ++ create_trace_42 ++ watch_trace_42
        ++ output_events details_app_1,
        Returned tt)
  /\ run_failed
       (trace_of (run sample_inputs (pr42 "closed") 3 fresh_world)) = false
  /\ existsb is_create
       (trace_of (run sample_inputs (pr42 "closed") 3 fresh_world)) = true.
Proof.
  split.
  - intros W platform inputs context fuel w w1 t.
    apply closed_event_is_reconciled.
  - repeat split.
Qed.

(** ** C8: which id the destroy call carries *)

(** C8. What the code does at the destroy of the reconciling path: for
    every review app found, the one destroy call goes to the application
    endpoint with the [id] of the review-app entry, not with the id of its
    application.  So when PR #42 is synchronized while its review app
    [ra-1], whose application is [app-1], exists, the run calls
    [DELETE /apps/ra-1], and nothing is sent to [/apps/app-1]. *)
Theorem destroy_call_carries_review_app_id :
  (forall (W : Type) (platform : Platform W) inputs context fuel app (w : W),
     exists reply rest,
       trace_of (destroy_existing inputs context fuel (Some app) w)
       = HerokuDelete ("/apps/" ++ ReviewApp.id app) reply :: rest
       /\ existsb is_destroy rest = false)
  /\ ReviewApp.id (review_app_42 "created") = "ra-1"
  /\ ReviewApp.app (review_app_42 "created") = Some (AppRef.mk "app-1")
  /\ delete_urls
       (trace_of
          (run sample_inputs (pr42 "synchronize") 3
             (scripted_world
                [[review_app_42 "created"]; [review_app_42 "deleted"]] []
                (Rejected server_error))))
     = ["/apps/ra-1"].
Proof.
  split.
  - intros W platform inputs context fuel app w.
    apply destroy_existing_call.
  - repeat split.
Qed.

(** ** C9: the base repository is a fork, the head is not *)

(** C9, refuted as stated: PR #42 of a repository that is itself a fork,
    from a head that is not, issues a create request without
    [fork_repo_id]. *)
Lemma base_fork_create_has_no_fork_repo_id :
  ~ fork_repo_id_follows_base_fork.
Proof.
  intros Hclaim.
  specialize (Hclaim Scripted.World Scripted.platform sample_inputs
                pr42_base_fork 1
                (scripted_world [] [] (Rejected server_error))
                "/review-apps" create_body_42 (Rejected server_error)).
  assert (Hin : In (HerokuPost "/review-apps" create_body_42
                      (Rejected server_error))
                   (trace_of
                      (run sample_inputs pr42_base_fork 1
                         (scripted_world [] [] (Rejected server_error)))))
    by (vm_compute; auto).
  destruct (Hclaim Hin) as [_ H]. specialize (H eq_refl). discriminate.
Qed.

(** ** Instances of the theorems *)

Lemma missing_build_faults_witness :
  waitReviewAppUpdated_loop sample_inputs (pr42 "opened") 1
    (scripted_world [[review_app_42 "created"]] [[build "abc123" "succeeded"]]
       (Resolved (review_app_42 "creating")))
  = (scripted_world [] [] (Resolved (review_app_42 "creating")),
     [located [review_app_42 "created"]]
     ++ [HerokuGetBuilds "/apps/app-1/builds"
           (Resolved [build "abc123" "succeeded"])],
     Thrown (TypeError_reading "undefined" "status")).
Proof.
  refine (proj2 (missing_build_faults sample_inputs (pr42 "opened") 0
                   (scripted_world [[review_app_42 "created"]]
                      [[build "abc123" "succeeded"]]
                      (Resolved (review_app_42 "creating")))
                   (scripted_world [] [[build "abc123" "succeeded"]]
                      (Resolved (review_app_42 "creating")))
                   [located [review_app_42 "created"]]
                   (review_app_42 "created") (AppRef.mk "app-1")
                   (scripted_world [] [] (Resolved (review_app_42 "creating")))
                   [build "abc123" "succeeded"]
                   _ _ _ _ _ _ _)).
  - reflexivity.
  - discriminate.
  - discriminate.
  - discriminate.
  - reflexivity.
  - reflexivity.
  - reflexivity.
Defined.


(** The builds [{v1: succeeded, v2: pending}] with target [v2 = def456]:
    not finished. *)
Lemma build_version_matching_witness :
  checkBuildStatusForReviewApp (pr42 "opened")
    (Some (review_app_42 "created"))
    (scripted_world []
       [[build "abc123" "succeeded"; build "def456" "pending"]]
       (Resolved (review_app_42 "creating")))
  = (scripted_world [] [] (Resolved (review_app_42 "creating")),
     [HerokuGetBuilds "/apps/app-1/builds"
        (Resolved [build "abc123" "succeeded"; build "def456" "pending"])],
     Returned false).
Proof.
  refine (proj1 (proj2 (build_version_matching (pr42 "opened")
                          (scripted_world []
                             [[build "abc123" "succeeded";
                               build "def456" "pending"]]
                             (Resolved (review_app_42 "creating")))
                          (review_app_42 "created"))
                   (AppRef.mk "app-1")
                   (scripted_world [] [] (Resolved (review_app_42 "creating")))
                   [build "abc123" "succeeded"; build "def456" "pending"]
                   (build "def456" "pending") _ _ _ _ _ _) _).
  - discriminate.
  - discriminate.
  - discriminate.
  - reflexivity.
  - reflexivity.
  - reflexivity.
  - reflexivity.
Defined.

(** Scenario 6 of the examples: the create call of PR #42 is answered
    with a conflict, the re-location finds the review app, and
    [createReviewApp] returns it. *)
Lemma create_conflict_recovery_witness :
  createReviewApp sample_inputs (pr42 "opened")
    (scripted_world [[review_app_42 "creating"]] [] (Rejected conflict))
  = (scripted_world [] [] (Rejected conflict),
     [CoreStartGroup "Creating new review app";
      DownloadTarballArchive archive_42 (Resolved archive_url_42);
      HerokuPost "/review-apps" create_body_42 (Rejected conflict)]
     ++ [CoreWarning "Review app now seems to exist after previously not...";
         CoreEndGroup]
     ++ [located [review_app_42 "creating"]],
     Returned (review_app_42 "creating")).
Proof.
  refine (proj1 (proj2 (create_conflict_recovery sample_inputs (pr42 "opened")
                          3
                          (scripted_world [[]; [review_app_42 "creating"]] []
                             (Rejected conflict))
                          (scripted_world [[review_app_42 "creating"]] []
                             (Rejected conflict))
                          [located []] None
                          (scripted_world [[review_app_42 "creating"]] []
                             (Rejected conflict))
                          []
                          (scripted_world [[review_app_42 "creating"]] []
                             (Rejected conflict))
                          [CoreStartGroup "Creating new review app";
                           DownloadTarballArchive archive_42
                             (Resolved archive_url_42);
                           HerokuPost "/review-apps" create_body_42
                             (Rejected conflict)]
                          conflict _ _ _ _)
                   _
                   (scripted_world [] [] (Rejected conflict))
                   [located [review_app_42 "creating"]]
                   (Some (review_app_42 "creating")) _)).
  - repeat split; discriminate.
  - reflexivity.
  - reflexivity.
  - reflexivity.
  - reflexivity.
  - reflexivity.
Defined.

(** Scenario 2 of the examples up to the create call: the review app of
    PR #42 is found, destroyed and seen again as deleted before the create
    call is issued. *)
Lemma destroy_create_watch_in_sequence_witness :
  exists pre1 lurl reviewApps pre2,
    [located [review_app_42 "created"];
     HerokuDelete "/apps/ra-1" (Resolved tt);
     located [review_app_42 "deleted"];
     WaitSeconds 5;
     CoreStartGroup "Creating new review app";
     DownloadTarballArchive archive_42 (Resolved archive_url_42)]
    = pre1 ++ HerokuGetReviewApps lurl (Resolved reviewApps) :: pre2
    /\ existsb is_locate pre2 = false
    /\ (forall app,
          find (fun app => (ReviewApp.pr_number app =? 42)%Z) reviewApps
            = Some app ->
          ReviewApp.status app <> "deleting")
    /\ (existsb is_destroy
          [located [review_app_42 "created"];
           HerokuDelete "/apps/ra-1" (Resolved tt);
           located [review_app_42 "deleted"];
           WaitSeconds 5;
           CoreStartGroup "Creating new review app";
           DownloadTarballArchive archive_42 (Resolved archive_url_42)]
        = true ->
        exists app,
          find (fun app => (ReviewApp.pr_number app =? 42)%Z) reviewApps
            = Some app).
Proof.
  refine (proj2 (proj2 (proj2
            (proj1 (destroy_create_watch_in_sequence sample_inputs
                      (pr42 "synchronize") 3
                      (scripted_world
                         [[review_app_42 "created"];
                          [review_app_42 "deleted"]] []
                         (Rejected server_error)))
               [located [review_app_42 "created"];
                HerokuDelete "/apps/ra-1" (Resolved tt);
                located [review_app_42 "deleted"];
                WaitSeconds 5;
                CoreStartGroup "Creating new review app";
                DownloadTarballArchive archive_42 (Resolved archive_url_42)]
               "/review-apps" create_body_42 (Rejected server_error)
               [CoreError "Error: Internal Server Error";
                CoreSetFailed "Internal Server Error"]
               _)))).
  reflexivity.
Defined.

Lemma fork_repo_id_follows_head_fork_witness :
  Context.base_repo_fork pr42_base_fork = true
  /\ CreateBody.fork_repo_id create_body_42 = None.
Proof.
  split; [reflexivity |].
  refine (proj2 (proj2 (proj2
            (fork_repo_id_follows_head_fork sample_inputs pr42_base_fork 1
               (scripted_world [] [] (Rejected server_error))
               "/review-apps" create_body_42 (Rejected server_error) _)))).
  simpl. right. right. right. left. reflexivity.
Defined.

(** The review app of PR #42 is created, seen once as creating, and gone
    at the next location: the run ends failed. *)
Lemma watcher_absent_app_fails_run_witness :
  run_failed
    (trace_of
       (run sample_inputs (pr42 "opened") 3
          (scripted_world [[]; [review_app_42 "creating"]; []] []
             (Resolved (review_app_42 "creating")))))
  = true.
Proof.
  refine (proj2 (proj2 (proj2
            (watcher_absent_app_fails_run sample_inputs (pr42 "opened") 3
               (scripted_world [[]; [review_app_42 "creating"]; []] []
                  (Resolved (review_app_42 "creating")))
               (scripted_world [[review_app_42 "creating"]; []] []
                  (Resolved (review_app_42 "creating")))
               [located []] None
               (scripted_world [[review_app_42 "creating"]; []] []
                  (Resolved (review_app_42 "creating")))
               []
               (scripted_world [[review_app_42 "creating"]; []] []
                  (Resolved (review_app_42 "creating")))
               [CoreStartGroup "Creating new review app";
                DownloadTarballArchive archive_42 (Resolved archive_url_42);
                HerokuPost "/review-apps" create_body_42
                  (Resolved (review_app_42 "creating"));
                CoreEndGroup]
               (review_app_42 "creating")
               (scripted_world [[]] [] (Resolved (review_app_42 "creating")))
               [CoreStartGroup "Ensure review app is up to date";
                located [review_app_42 "creating"]]
               (scripted_world [] [] (Resolved (review_app_42 "creating")))
               [located []]
               _ _ _ _ _ _)))).
  - repeat split; discriminate.
  - reflexivity.
  - reflexivity.
  - reflexivity.
  - refine (reaches_loop sample_inputs (pr42 "opened") 3 0
              (scripted_world [[review_app_42 "creating"]; []] []
                 (Resolved (review_app_42 "creating")))
              (scripted_world [[]] [] (Resolved (review_app_42 "creating")))
              [located [review_app_42 "creating"]]
              (Some (review_app_42 "creating"))
              (scripted_world [[]] [] (Resolved (review_app_42 "creating")))
              [] false
              (scripted_world [[]] [] (Resolved (review_app_42 "creating")))
              [] _ _ _ _).
    + reflexivity.
    + reflexivity.
    + apply keeps_polling_O.
    + lia.
  - reflexivity.
Defined.

(** ** Instances of the further properties *)


Lemma first_location_rejected_fails_run_witness :
  run sample_inputs (pr42 "opened") 3 tt
  = (tt,
     [HerokuGetReviewApps locate_url (Rejected server_error);
      CoreError "Error: Internal Server Error";
      CoreSetFailed "Internal Server Error"],
     Returned tt).
Proof.
  refine (first_location_rejected_fails_run sample_inputs (pr42 "opened") 3
            tt tt server_error _ _ _).
  - reflexivity.
  - reflexivity.
  - reflexivity.
Defined.

(** The list holds the review app of PR #7 before that of PR #42. *)
Lemma located_review_app_is_first_of_pr_witness :
  exists reviewApps,
    Scripted.get_review_apps locate_url
      (scripted_world [[review_app_7; review_app_42 "created"]] []
         (Resolved (review_app_42 "creating")))
    = (scripted_world [] [] (Resolved (review_app_42 "creating")),
       Resolved reviewApps)
    /\ (ReviewApp.pr_number (review_app_42 "created") = 42%Z
        /\ exists before after,
             reviewApps = before ++ review_app_42 "created" :: after
             /\ forall other,
                  In other before -> ReviewApp.pr_number other <> 42%Z).
Proof.
  refine (located_review_app_is_first_of_pr sample_inputs (pr42 "opened")
            (scripted_world [[review_app_7; review_app_42 "created"]] []
               (Resolved (review_app_42 "creating")))
            (scripted_world [] [] (Resolved (review_app_42 "creating")))
            [located [review_app_7; review_app_42 "created"]]
            (Some (review_app_42 "created")) _).
  reflexivity.
Defined.

Lemma status_gate_precedes_build_query_witness :
  checkBuildStatusForReviewApp (pr42 "opened")
    (Some (review_app_42 "creating")) fresh_world
  = (fresh_world, [], Returned false).
Proof.
  refine (proj1 (status_gate_precedes_build_query (pr42 "opened")
                   fresh_world (review_app_42 "creating")) _).
  right. left. reflexivity.
Defined.

Lemma rejected_destroy_is_tolerated_witness :
  destroy_existing sample_inputs (pr42 "synchronize") 3
    (Some (review_app_42 "created")) tt
  = prepend
      [HerokuDelete "/apps/ra-1" (Rejected server_error);
       CoreNotice "Error destroying app: Error: Internal Server Error"]
      (destroy_wait_loop sample_inputs (pr42 "synchronize") 3 "deleting" tt).
Proof.
  refine (rejected_destroy_is_tolerated sample_inputs (pr42 "synchronize") 3
            (review_app_42 "created") tt tt server_error _).
  reflexivity.
Defined.

Lemma archive_failure_prevents_create_witness :
  createReviewApp sample_inputs (pr42 "opened") tt
  = (tt,
     [CoreStartGroup "Creating new review app";
      DownloadTarballArchive archive_42 (Rejected server_error)],
     Thrown server_error).
Proof.
  refine (proj1 (proj2 (archive_failure_prevents_create sample_inputs
                          (pr42 "opened") tt tt server_error _)) _).
  - reflexivity.
  - discriminate.
Defined.

(** The build of [def456] has failed when the watcher first looks. *)
Lemma watcher_error_fails_run_witness :
  waitReviewAppUpdated sample_inputs (pr42 "opened") 3
    (scripted_world [[review_app_42 "created"]] [[build "def456" "failed"]]
       (Resolved (review_app_42 "creating")))
  = (scripted_world [] [] (Resolved (review_app_42 "creating")),
     [CoreStartGroup "Ensure review app is up to date"]
     ++ [located [review_app_42 "created"];
         HerokuGetBuilds "/apps/app-1/builds"
           (Resolved [build "def456" "failed"])],
     Thrown (Error ("Unexpected build status: " ++ dquote ++ "created"
                    ++ dquote ++ ": no error provided"))).
Proof.
  refine (proj1 (watcher_error_fails_run sample_inputs (pr42 "opened") 3
                   (scripted_world [[]; [review_app_42 "created"]]
                      [[build "def456" "failed"]]
                      (Resolved (review_app_42 "creating")))
                   (scripted_world [[review_app_42 "created"]]
                      [[build "def456" "failed"]]
                      (Resolved (review_app_42 "creating")))
                   [located []] None
                   (scripted_world [[review_app_42 "created"]]
                      [[build "def456" "failed"]]
                      (Resolved (review_app_42 "creating")))
                   []
                   (scripted_world [[review_app_42 "created"]]
                      [[build "def456" "failed"]]
                      (Resolved (review_app_42 "creating")))
                   create_trace_42 (review_app_42 "creating")
                   (scripted_world [[review_app_42 "created"]]
                      [[build "def456" "failed"]]
                      (Resolved (review_app_42 "creating")))
                   [CoreStartGroup "Ensure review app is up to date"]
                   (scripted_world [] [] (Resolved (review_app_42 "creating")))
                   [located [review_app_42 "created"];
                    HerokuGetBuilds "/apps/app-1/builds"
                      (Resolved [build "def456" "failed"])]
                   (Error ("Unexpected build status: " ++ dquote ++ "created"
                           ++ dquote ++ ": no error provided"))
                   _ _ _ _ _ _)).
  - repeat split; discriminate.
  - reflexivity.
  - reflexivity.
  - reflexivity.
  - apply reaches_first_check.
  - reflexivity.
Defined.

Lemma watcher_returns_after_a_sleep_witness :
  exists polled ref,
    watch_trace_42
    = CoreStartGroup "Ensure review app is up to date"
      :: polled
      ++ [WaitSeconds 5; CoreEndGroup;
          HerokuGetApp ("/apps/" ++ AppRef.id ref) (Resolved details_app_1)]
    /\ forallb is_poll_event polled = true
    /\ 2 <= length (filter is_locate polled).
Proof.
  refine (watcher_returns_after_a_sleep sample_inputs (pr42 "opened") 3
            (scripted_world
               [[review_app_42 "created"]; [review_app_42 "created"]]
               [[build "def456" "pending"]; [build "def456" "succeeded"]]
               (Resolved (review_app_42 "creating")))
            (scripted_world [] [] (Resolved (review_app_42 "creating")))
            watch_trace_42 details_app_1 _).
  reflexivity.
Defined.

Lemma successful_run_publishes_details_witness :
  run sample_inputs (pr42 "opened") 3 fresh_world
  = (scripted_world [] [] (Resolved (review_app_42 "creating")),
     [located []] ++ [] ++ create_trace_42 ++ watch_trace_42
     ++ [CoreStartGroup "Output app details";
         CoreSetOutput "app_id" "app-1";
         CoreSetOutput "app_web_url" "https://app-1.example";
         CoreEndGroup],
     Returned tt).
Proof.
  refine (successful_run_publishes_details sample_inputs (pr42 "opened") 3
            fresh_world
            (scripted_world
               [[review_app_42 "created"]; [review_app_42 "created"]]
               [[build "def456" "pending"]; [build "def456" "succeeded"]]
               (Resolved (review_app_42 "creating")))
            [located []] None
            (scripted_world
               [[review_app_42 "created"]; [review_app_42 "created"]]
               [[build "def456" "pending"]; [build "def456" "succeeded"]]
               (Resolved (review_app_42 "creating")))
            []
            (scripted_world
               [[review_app_42 "created"]; [review_app_42 "created"]]
               [[build "def456" "pending"]; [build "def456" "succeeded"]]
               (Resolved (review_app_42 "creating")))
            create_trace_42 (review_app_42 "creating")
            (scripted_world [] [] (Resolved (review_app_42 "creating")))
            watch_trace_42 details_app_1 _ _ _ _ _).
  - repeat split; discriminate.
  - reflexivity.
  - reflexivity.
  - reflexivity.
  - reflexivity.
Defined.

(** The review app is seen deleting once, then deleted. *)
Lemma destroy_wait_returns_at_first_other_status_witness :
  destroy_wait_loop sample_inputs (pr42 "synchronize") 2 "deleting"
    (scripted_world [[review_app_42 "deleting"]; [review_app_42 "deleted"]]
       [] (Resolved (review_app_42 "creating")))
  = (scripted_world [] [] (Resolved (review_app_42 "creating")),
     ([located [review_app_42 "deleting"]] ++ [WaitSeconds 5] ++ [])
     ++ [located [review_app_42 "deleted"]] ++ [WaitSeconds 5],
     Returned tt).
Proof.
  refine (proj2 (destroy_wait_returns_at_first_other_status sample_inputs
                   (pr42 "synchronize") 1 2
                   (scripted_world
                      [[review_app_42 "deleting"]; [review_app_42 "deleted"]]
                      [] (Resolved (review_app_42 "creating")))
                   ([located [review_app_42 "deleting"]]
                    ++ [WaitSeconds 5] ++ [])
                   (scripted_world [[review_app_42 "deleted"]] []
                      (Resolved (review_app_42 "creating")))
                   _)
            (scripted_world [] [] (Resolved (review_app_42 "creating")))
            [located [review_app_42 "deleted"]]
            (review_app_42 "deleted") _ _ _).
  - refine (keeps_waiting_S sample_inputs (pr42 "synchronize") 0
              (scripted_world
                 [[review_app_42 "deleting"]; [review_app_42 "deleted"]]
                 [] (Resolved (review_app_42 "creating")))
              (scripted_world [[review_app_42 "deleted"]] []
                 (Resolved (review_app_42 "creating")))
              [located [review_app_42 "deleting"]]
              (Some (review_app_42 "deleting"))
              (scripted_world [[review_app_42 "deleted"]] []
                 (Resolved (review_app_42 "creating")))
              [] _ _ _).
    + reflexivity.
    + reflexivity.
    + apply keeps_waiting_O.
  - reflexivity.
  - discriminate.
  - lia.
Defined.

Lemma every_sleep_is_five_seconds_witness :
  In (WaitSeconds 5)
     (trace_of (run sample_inputs (pr42 "opened") 3 fresh_world))
  /\ 5%Z = 5%Z.
Proof.
  assert (Hin : In (WaitSeconds 5)
                   (trace_of (run sample_inputs (pr42 "opened") 3 fresh_world)))
    by (vm_compute; tauto).
  split; [exact Hin |].
  exact (every_sleep_is_five_seconds sample_inputs (pr42 "opened") 3
           fresh_world 5%Z Hin).
Defined.

Lemma outputs_exclude_failure_witness :
  existsb is_set_output
    (trace_of (run sample_inputs (pr42 "opened") 3 fresh_world)) = true
  /\ run_failed
       (trace_of (run sample_inputs (pr42 "opened") 3 fresh_world)) = false.
Proof.
  split; [reflexivity |].
  refine (proj1 (outputs_exclude_failure sample_inputs (pr42 "opened") 3
                   fresh_world _)).
  reflexivity.
Defined.

Lemma create_request_carries_event_witness :
  CreateBody.pr_number create_body_42 = 42%Z
  /\ CreateBody.source_blob_version create_body_42 = "def456".
Proof.
  assert (Hin : In (HerokuPost "/review-apps" create_body_42
                      (Resolved (review_app_42 "creating")))
                   (trace_of (run sample_inputs (pr42 "opened") 3 fresh_world)))
    by (vm_compute; tauto).
  destruct (create_request_carries_event sample_inputs (pr42 "opened") 3
              fresh_world _ _ _ Hin)
    as (_ & _ & _ & Hversion & Hnumber & _).
  split; [exact Hnumber | exact Hversion].
Defined.

Lemma watcher_returns_details_of_last_located_witness :
  waitReviewAppUpdated sample_inputs (pr42 "opened") 3
    (scripted_world
       [[review_app_42 "created"]; [review_app_42 "created"]]
       [[build "def456" "pending"]; [build "def456" "succeeded"]]
       (Resolved (review_app_42 "creating")))
  = (scripted_world [] [] (Resolved (review_app_42 "creating")),
     watch_trace_42, Returned details_app_1).
Proof.
  refine (watcher_returns_details_of_last_located sample_inputs
            (pr42 "opened") 3 0
            (scripted_world
               [[review_app_42 "created"]; [review_app_42 "created"]]
               [[build "def456" "pending"]; [build "def456" "succeeded"]]
               (Resolved (review_app_42 "creating")))
            (scripted_world
               [[review_app_42 "created"]]
               [[build "def456" "pending"]; [build "def456" "succeeded"]]
               (Resolved (review_app_42 "creating")))
            [located [review_app_42 "created"]]
            (Some (review_app_42 "created"))
            (scripted_world
               [[review_app_42 "created"]]
               [[build "def456" "succeeded"]]
               (Resolved (review_app_42 "creating")))
            [HerokuGetBuilds "/apps/app-1/builds"
               (Resolved [build "def456" "pending"])]
            false
            (scripted_world
               [[review_app_42 "created"]]
               [[build "def456" "succeeded"]]
               (Resolved (review_app_42 "creating")))
            []
            (scripted_world []
               [[build "def456" "succeeded"]]
               (Resolved (review_app_42 "creating")))
            [located [review_app_42 "created"]]
            (review_app_42 "created") (AppRef.mk "app-1")
            (scripted_world [] [] (Resolved (review_app_42 "creating")))
            [HerokuGetBuilds "/apps/app-1/builds"
               (Resolved [build "def456" "succeeded"])]
            (scripted_world [] [] (Resolved (review_app_42 "creating")))
            details_app_1 _ _ _ _ _ _ _ _).
  - reflexivity.
  - reflexivity.
  - apply keeps_polling_O.
  - reflexivity.
  - reflexivity.
  - reflexivity.
  - reflexivity.
  - lia.
Defined.
